(** * The chat-completion pipeline of the meta-reference inference provider

    A shallow embedding of
    [llama_toolchain/inference/meta_reference/inference.py]:
    the async generator [MetaReferenceInferenceImpl.chat_completion], the
    module-level [SEMAPHORE] that admits one request at a time, and the
    chunks the generator yields.

    The generator is modelled twice.  [chat_completion_anext] is the
    resumable view: one call runs the body from the current suspension
    point to the next [yield], pulling as many token results as that takes.
    [chat_completion] is the same body run in one go.  [drain_chat_completion]
    relates the two. *)

From Stdlib Require Import String Ascii List Bool Arith Lia ZArith.
Import ListNotations.

Local Open Scope string_scope.
Local Open Scope list_scope.

(** ** Strings as Python uses them here *)

(** [s[n:]] *)
Fixpoint slice_from (n : nat) (s : string) : string :=
  match n, s with
  | O, _ => s
  | S _, EmptyString => EmptyString
  | S n', String _ s' => slice_from n' s'
  end.

(** [s.startswith(p)] *)
Definition startswith (s p : string) : bool := String.prefix p s.

(** ["".join(l)] *)
Fixpoint join (l : list string) : string :=
  match l with
  | [] => EmptyString
  | s :: l' => String.append s (join l')
  end.

(** The suffixes of [s], longest first, down to the empty one. *)
Fixpoint suffixes (s : string) : list string :=
  s :: match s with
       | EmptyString => []
       | String _ s' => suffixes s'
       end.

Definition python_tag : string := "<|python_tag|>".
Definition eot_id : string := "<|eot_id|>".
Definition eom_id : string := "<|eom_id|>".

(** The fragments that lines 130-135 take for the end of the turn or of
    the message. *)
Definition is_marker (fragment : string) : bool :=
  String.eqb fragment eot_id || String.eqb fragment eom_id.

(** ** Data types of the inference API *)

Inductive StopReason : Set :=
| end_of_turn
| end_of_message
| out_of_tokens.

Inductive ChatCompletionResponseEventType : Set :=
| start
| complete
| progress.

Inductive ToolCallParseStatus : Set :=
| started
| in_progress
| failure
| success.

Inductive Exception : Set :=
| RuntimeError (msg : string).

(** [asyncio.Semaphore]: a counter of free permits.  No caller ever waits
    on [SEMAPHORE] (see [acquire] below), so the waiter queue is left out. *)
Record Semaphore : Set := { value : nat }.

(** [SEMAPHORE = asyncio.Semaphore(1)] *)
Definition SEMAPHORE : Semaphore := {| value := 1 |}.

Definition locked (sem : Semaphore) : bool := Nat.eqb (value sem) 0.

(** [None] stands for a caller that would have to wait. *)
Definition acquire (sem : Semaphore) : option Semaphore :=
  if locked sem then None else Some {| value := value sem - 1 |}.

Definition release (sem : Semaphore) : Semaphore :=
  {| value := value sem + 1 |}.

Definition eqb_status (a b : ToolCallParseStatus) : bool :=
  match a, b with
  | started, started
  | in_progress, in_progress
  | failure, failure
  | success, success => true
  | _, _ => false
  end.

(** What the provider imports from [llama_models] and gets from the
    generator process is taken as given: the tool-call, message, model and
    log-probability types, the model registry, and the formatter that
    decodes the token list into a message. *)
Class LlamaModels : Type := {
  ToolCall : Type;
  CompletionMessage : Type;
  Model : Type;
  LogProb : Type;
  resolve_model : string -> option Model;
  descriptor : Model -> string;
  tool_calls : CompletionMessage -> list ToolCall;
  decode_assistant_message : list Z -> StopReason -> CompletionMessage
}.

Record ChatCompletionRequest : Type := {
  request_model : string;
  request_stream : bool;
  request_logprobs : bool
}.

Section MetaReference.

Context {E : LlamaModels}.

Record TokenResult : Type := {
  token : Z;
  text : string;
  logprob : LogProb
}.

(** The [content] of a [ToolCallDelta] is a [str] or a [ToolCall]. *)
Inductive ToolCallContent : Type :=
| ContentStr (s : string)
| ContentToolCall (tool_call : ToolCall).

Record ToolCallDelta : Type := {
  content : ToolCallContent;
  parse_status : ToolCallParseStatus
}.

(** The [delta] of an event is a [str] or a [ToolCallDelta]. *)
Inductive Delta : Type :=
| DeltaStr (s : string)
| DeltaToolCall (d : ToolCallDelta).

Record ChatCompletionResponseEvent : Type := {
  event_type : ChatCompletionResponseEventType;
  delta : Delta;
  event_stop_reason : option StopReason
}.

(** What the generator yields. *)
Inductive Chunk : Type :=
| ChatCompletionResponseStreamChunk (event : ChatCompletionResponseEvent)
| ChatCompletionResponse (completion_message : CompletionMessage)
                         (response_logprobs : option (list LogProb)).

(** [self]: the loaded model and the generator process, which answers a
    request with the token results it will produce, in order. *)
Record MetaReferenceInferenceImpl : Type := {
  self_model : Model;
  generator_chat_completion : ChatCompletionRequest -> list TokenResult
}.

Variable self : MetaReferenceInferenceImpl.

(** ** The body of [chat_completion] *)

(** The local variables that live across iterations of the [for] loop. *)
Record Locals : Type := {
  tokens : list Z;
  logprobs : list LogProb;
  stop_reason : option StopReason;
  buffer : string;
  ipython : bool
}.

Definition initial_locals : Locals :=
  {| tokens := []; logprobs := []; stop_reason := None;
     buffer := ""; ipython := false |}.

Definition start_chunk : Chunk :=
  ChatCompletionResponseStreamChunk
    {| event_type := start; delta := DeltaStr ""; event_stop_reason := None |}.

Definition progress_chunk (d : Delta) (sr : option StopReason) : Chunk :=
  ChatCompletionResponseStreamChunk
    {| event_type := progress; delta := d; event_stop_reason := sr |}.

Definition complete_chunk (sr : StopReason) : Chunk :=
  ChatCompletionResponseStreamChunk
    {| event_type := complete; delta := DeltaStr "";
       event_stop_reason := Some sr |}.

Definition started_chunk : Chunk :=
  progress_chunk
    (DeltaToolCall {| content := ContentStr ""; parse_status := started |})
    None.

Definition failure_chunk (sr : StopReason) : Chunk :=
  progress_chunk
    (DeltaToolCall {| content := ContentStr ""; parse_status := failure |})
    (Some sr).

Definition success_chunk (sr : StopReason) (tool_call : ToolCall) : Chunk :=
  progress_chunk
    (DeltaToolCall {| content := ContentToolCall tool_call;
                      parse_status := success |})
    (Some sr).

(** The test of line 110. *)
Definition enters_tool_call (l : Locals) (token_result : TokenResult) : bool :=
  negb (ipython l)
  && startswith (String.append (buffer l) (text token_result)) python_tag.

(** Lines 130-137: the stop reason and the text to show for one fragment. *)
Definition classify (sr : option StopReason) (fragment : string)
  : option StopReason * string :=
  if String.eqb fragment eot_id then (Some end_of_turn, "")
  else if String.eqb fragment eom_id then (Some end_of_message, "")
  else (sr, fragment).

(** One iteration of the [for] loop (lines 107-154): the locals after it and
    what it yielded. *)
Definition loop_body (request : ChatCompletionRequest) (l : Locals)
    (token_result : TokenResult) : Locals * list Chunk :=
  let buffer1 := String.append (buffer l) (text token_result) in
  let tokens1 := tokens l ++ [token token_result] in
  if enters_tool_call l token_result then
    ({| tokens := tokens1; logprobs := logprobs l;
        stop_reason := stop_reason l;
        buffer := slice_from (String.length python_tag) buffer1;
        ipython := true |},
     [started_chunk])
  else if negb (request_stream request) then
    ({| tokens := tokens1;
        logprobs := if request_logprobs request
                    then logprobs l ++ [logprob token_result]
                    else logprobs l;
        stop_reason := stop_reason l;
        buffer := buffer1;
        ipython := ipython l |},
     [])
  else
    let '(stop_reason1, text1) :=
      classify (stop_reason l) (text token_result) in
    let delta1 :=
      if ipython l
      then DeltaToolCall {| content := ContentStr text1;
                            parse_status := in_progress |}
      else DeltaStr text1 in
    ({| tokens := tokens1; logprobs := logprobs l;
        stop_reason := stop_reason1;
        buffer := buffer1;
        ipython := ipython l |},
     match stop_reason1 with
     | None => [progress_chunk delta1 stop_reason1]
     | Some _ => []
     end).

(** The whole [for] loop over the token results still to come. *)
Fixpoint run_loop (request : ChatCompletionRequest) (l : Locals)
    (rest : list TokenResult) : Locals * list Chunk :=
  match rest with
  | [] => (l, [])
  | token_result :: rest' =>
      let '(l1, out) := loop_body request l token_result in
      let '(l2, outs) := run_loop request l1 rest' in
      (l2, out ++ outs)
  end.

(** Lines 156-157. *)
Definition resolved_stop_reason (l : Locals) : StopReason :=
  match stop_reason l with
  | None => out_of_tokens
  | Some sr => sr
  end.

(** Line 161. *)
Definition final_message (l : Locals) : CompletionMessage :=
  decode_assistant_message (tokens l) (resolved_stop_reason l).

(** Lines 165-188: what the decoded message adds to the stream, a failure
    chunk or one success chunk for each tool call. *)
Definition tool_call_chunks (l : Locals) : list Chunk :=
  let stop_reason1 := resolved_stop_reason l in
  let message := final_message l in
  let parsed_tool_calls := Nat.ltb 0 (List.length (tool_calls message)) in
  (if ipython l && negb parsed_tool_calls
   then [failure_chunk stop_reason1] else [])
  ++ map (success_chunk stop_reason1) (tool_calls message).

(** Lines 156-203: everything yielded once the loop is over. *)
Definition after_loop (request : ChatCompletionRequest) (l : Locals)
  : list Chunk :=
  if request_stream request then
    tool_call_chunks l ++ [complete_chunk (resolved_stop_reason l)]
  else
    [ChatCompletionResponse (final_message l)
       (if request_logprobs request then Some (logprobs l) else None)].

(** The locals when the loop is over, and the chunks of a session that got
    past the checks of lines 70-83. *)
Definition final_locals (request : ChatCompletionRequest) : Locals :=
  fst (run_loop request initial_locals
         (generator_chat_completion self request)).

Definition loop_chunks (request : ChatCompletionRequest) : list Chunk :=
  snd (run_loop request initial_locals
         (generator_chat_completion self request)).

Definition session_chunks (request : ChatCompletionRequest) : list Chunk :=
  (if request_stream request then [start_chunk] else [])
  ++ loop_chunks request
  ++ after_loop request (final_locals request).

(** ** The checks before the semaphore (lines 70-81) *)

Definition unknown_model (request : ChatCompletionRequest) : Exception :=
  RuntimeError
    (String.append "Unknown model: "
       (String.append (request_model request) ", Run `llama model list`")).

Definition model_mismatch (request : ChatCompletionRequest) : Exception :=
  RuntimeError
    (String.append "Model mismatch: "
       (String.append (request_model request)
          (String.append " != " (descriptor (self_model self))))).

Definition only_one_request : Exception :=
  RuntimeError "Only one concurrent request is supported".

(** Lines 70-78: [None] when the request names the loaded model. *)
Definition check_model (request : ChatCompletionRequest) : option Exception :=
  match resolve_model (request_model request) with
  | None => Some (unknown_model request)
  | Some model =>
      if negb (String.eqb (descriptor model) (descriptor (self_model self)))
      then Some (model_mismatch request)
      else None
  end.

(** ** The generator, one [__anext__] at a time *)

(** Where the generator can be suspended: not started yet; at a [yield]
    before or inside the loop, with the token results not pulled yet; at a
    [yield] after the loop, with the chunks it has still to yield; over. *)
Inductive Frame : Type :=
| Created (request : ChatCompletionRequest)
| InLoop (request : ChatCompletionRequest) (l : Locals)
         (rest : list TokenResult)
| AfterLoop (pending : list Chunk)
| Finished.

(** How one [__anext__] ends.  [Blocked] is a wait on the semaphore. *)
Inductive Signal : Type :=
| Yield (c : Chunk)
| Raise (e : Exception)
| StopAsyncIteration
| Blocked.

Definition yield_pending (pending : list Chunk) : Signal * Frame :=
  match pending with
  | c :: pending' => (Yield c, AfterLoop pending')
  | [] => (StopAsyncIteration, Finished)
  end.

(** Run the loop from the top of an iteration up to the next [yield]. *)
Fixpoint resume_loop (request : ChatCompletionRequest) (l : Locals)
    (rest : list TokenResult) : Signal * Frame :=
  match rest with
  | [] => yield_pending (after_loop request l)
  | token_result :: rest' =>
      match loop_body request l token_result with
      | (l1, c :: _) => (Yield c, InLoop request l1 rest')
      | (l1, []) => resume_loop request l1 rest'
      end
  end.

(** Leaving the [async with] block gives the permit back; a [yield] inside
    it keeps the permit. *)
Definition async_with_exit (sem : Semaphore) (r : Signal * Frame)
  : Signal * Frame * Semaphore :=
  match fst r with
  | Yield _ => (r, sem)
  | _ => (r, release sem)
  end.

Definition chat_completion_anext (sem : Semaphore) (frame : Frame)
  : Signal * Frame * Semaphore :=
  match frame with
  | Created request =>
      match check_model request with
      | Some e => (Raise e, Finished, sem)
      | None =>
          if locked sem then (Raise only_one_request, Finished, sem)
          else
            match acquire sem with
            | None => (Blocked, Created request, sem)
            | Some sem1 =>
                if request_stream request then
                  (Yield start_chunk,
                   InLoop request initial_locals
                     (generator_chat_completion self request),
                   sem1)
                else
                  async_with_exit sem1
                    (resume_loop request initial_locals
                       (generator_chat_completion self request))
            end
      end
  | InLoop request l rest => async_with_exit sem (resume_loop request l rest)
  | AfterLoop pending => async_with_exit sem (yield_pending pending)
  | Finished => (StopAsyncIteration, Finished, sem)
  end.

(** The consumer's [async for]: call [__anext__] until it stops yielding.
    [None] as the signal means the fuel ran out first. *)
Fixpoint drain (fuel : nat) (sem : Semaphore) (frame : Frame)
  : list Chunk * option Signal * Semaphore :=
  match fuel with
  | O => ([], None, sem)
  | S fuel' =>
      match chat_completion_anext sem frame with
      | (Yield c, frame1, sem1) =>
          let '(cs, sig, sem2) := drain fuel' sem1 frame1 in
          (c :: cs, sig, sem2)
      | (sig, _, sem1) => ([], Some sig, sem1)
      end
  end.

(** [n] calls of [__anext__], whatever they return. *)
Fixpoint advance (n : nat) (sem : Semaphore) (frame : Frame)
  : Frame * Semaphore :=
  match n with
  | O => (frame, sem)
  | S n' =>
      let '(_, frame1, sem1) := chat_completion_anext sem frame in
      advance n' sem1 frame1
  end.

(** ** The generator run in one go *)

Definition chat_completion (sem : Semaphore) (request : ChatCompletionRequest)
  : list Chunk * Signal * Semaphore :=
  match check_model request with
  | Some e => ([], Raise e, sem)
  | None =>
      if locked sem then ([], Raise only_one_request, sem)
      else
        match acquire sem with
        | None => ([], Blocked, sem)
        | Some sem1 => (session_chunks request, StopAsyncIteration, release sem1)
        end
  end.

(** ** Reading a sequence of chunks *)

Definition has_event_type (t : ChatCompletionResponseEventType) (c : Chunk)
  : bool :=
  match c with
  | ChatCompletionResponseStreamChunk event =>
      match t, event_type event with
      | start, start | complete, complete | progress, progress => true
      | _, _ => false
      end
  | ChatCompletionResponse _ _ => false
  end.

(** The parse status of a chunk that carries a tool-call delta. *)
Definition chunk_parse_status (c : Chunk) : option ToolCallParseStatus :=
  match c with
  | ChatCompletionResponseStreamChunk event =>
      match delta event with
      | DeltaToolCall d => Some (parse_status d)
      | DeltaStr _ => None
      end
  | ChatCompletionResponse _ _ => None
  end.

Definition has_status (s : ToolCallParseStatus) (c : Chunk) : bool :=
  match chunk_parse_status c with
  | Some s' => eqb_status s s'
  | None => false
  end.

Definition count_event_type (t : ChatCompletionResponseEventType)
    (cs : list Chunk) : nat :=
  List.length (filter (has_event_type t) cs).

Definition count_status (s : ToolCallParseStatus) (cs : list Chunk) : nat :=
  List.length (filter (has_status s) cs).

(** The text a chunk shows, when its delta is a [str] or carries one. *)
Definition chunk_text (c : Chunk) : option string :=
  match c with
  | ChatCompletionResponseStreamChunk event =>
      match delta event with
      | DeltaStr s => Some s
      | DeltaToolCall d =>
          match content d with
          | ContentStr s => Some s
          | ContentToolCall _ => None
          end
      end
  | ChatCompletionResponse _ _ => None
  end.

(** [Progress* . Complete] and [Start . Progress* . Complete]. *)
Fixpoint progress_then_complete (cs : list Chunk) : bool :=
  match cs with
  | [] => false
  | [c] => has_event_type complete c
  | c :: cs' => has_event_type progress c && progress_then_complete cs'
  end.

Definition start_progress_complete (cs : list Chunk) : bool :=
  match cs with
  | [] => false
  | c :: cs' => has_event_type start c && progress_then_complete cs'
  end.

(** What the chunks of the loop have in common: they are progress events,
    and none has the status [failure] or [success]. *)
Definition loop_chunk (c : Chunk) : Prop :=
  has_event_type progress c = true
  /\ has_status failure c = false
  /\ has_status success c = false.

(** ** Following the loop over a token sequence *)

(** The locals after the loop has run over [toks]. *)
Definition locals_after (request : ChatCompletionRequest)
    (toks : list TokenResult) : Locals :=
  fst (run_loop request initial_locals toks).

(** How many iterations over [toks], started from [l], take the branch of
    lines 110-122, the only place that sets [ipython] and cuts the buffer. *)
Fixpoint entries (request : ChatCompletionRequest) (l : Locals)
    (toks : list TokenResult) : nat :=
  match toks with
  | [] => 0
  | token_result :: toks' =>
      (if enters_tool_call l token_result then 1 else 0)
      + entries request (fst (loop_body request l token_result)) toks'
  end.

(** The frames in which the generator holds the permit. *)
Definition generating (frame : Frame) : bool :=
  match frame with
  | InLoop _ _ _ | AfterLoop _ => true
  | Created _ | Finished => false
  end.

(** The reading of the admission check under which every request that
    arrives while a first session holds the permit gets the error of
    line 81, whatever model it names. *)
Definition every_second_session_busy : Prop :=
  forall request1 n request2,
    generating (fst (advance n SEMAPHORE (Created request1))) = true ->
    fst (fst (chat_completion_anext
                (snd (advance n SEMAPHORE (Created request1)))
                (Created request2)))
    = Raise only_one_request.

(** The reading of the tool-call entry under which the cut buffer is what
    the next fragment shows: whenever the iteration over [t] enters
    tool-call mode, the iteration over the following [t'] yields one
    progress chunk whose text is the buffer left by the cut. *)
Definition remainder_is_next_content (request : ChatCompletionRequest)
    (toks : list TokenResult) : Prop :=
  forall pre t t' post,
    toks = pre ++ t :: t' :: post ->
    enters_tool_call (locals_after request pre) t = true ->
    exists d sr,
      snd (loop_body request (locals_after request (pre ++ [t])) t')
        = [progress_chunk d sr]
      /\ chunk_text (progress_chunk d sr)
         = Some (buffer (locals_after request (pre ++ [t]))).

End MetaReference.

(** ** Sample sessions

    A small registry with two models; tool calls that are strings; a message
    that records the stop reason it was decoded with and has one tool call
    for each token [7] in the list; natural numbers in the place of
    log-probabilities. *)

Definition sample_models : LlamaModels := {|
  ToolCall := string;
  CompletionMessage := StopReason * list string;
  Model := string;
  LogProb := nat;
  resolve_model := fun name =>
    if String.eqb name "Meta-Llama3.1-8B-Instruct" then Some name
    else if String.eqb name "Meta-Llama3.1-70B-Instruct" then Some name
    else None;
  descriptor := fun m => m;
  tool_calls := fun message => snd message;
  decode_assistant_message := fun toks sr =>
    (sr, map (fun _ => "get_weather") (filter (Z.eqb 7) toks))
|}.

Definition sample_token (t : Z) (s : string) : @TokenResult sample_models :=
  @Build_TokenResult sample_models t s (Z.to_nat t).

(** A provider that has the 8B model loaded and generates [toks]. *)
Definition sample_impl (toks : list (@TokenResult sample_models))
  : @MetaReferenceInferenceImpl sample_models :=
  @Build_MetaReferenceInferenceImpl sample_models
    "Meta-Llama3.1-8B-Instruct" (fun _ => toks).

Definition sample_request (stream logprobs : bool) : ChatCompletionRequest :=
  {| request_model := "Meta-Llama3.1-8B-Instruct";
     request_stream := stream;
     request_logprobs := logprobs |}.

Definition unknown_request : ChatCompletionRequest :=
  {| request_model := "no-such-model";
     request_stream := true;
     request_logprobs := false |}.

Definition mismatched_request : ChatCompletionRequest :=
  {| request_model := "Meta-Llama3.1-70B-Instruct";
     request_stream := true;
     request_logprobs := false |}.

Definition hello_world : list (@TokenResult sample_models) :=
  [sample_token 1 "Hello"; sample_token 2 " world"].

Definition hello_eot : list (@TokenResult sample_models) :=
  [sample_token 1 "Hello"; sample_token 2 "<|eot_id|>"].

Definition tool_call_tokens : list (@TokenResult sample_models) :=
  [sample_token 3 "<|python_tag|>"; sample_token 7 "foo(";
   sample_token 4 "1)"; sample_token 2 "<|eot_id|>"].

Definition failed_tool_call_tokens : list (@TokenResult sample_models) :=
  [sample_token 3 "<|python_tag|>"; sample_token 5 "foo(";
   sample_token 2 "<|eot_id|>"].

Definition split_tag_tokens : list (@TokenResult sample_models) :=
  [sample_token 3 "<|python"; sample_token 4 "_tag|>"; sample_token 7 "f()"].

Definition tag_with_tail_tokens : list (@TokenResult sample_models) :=
  [sample_token 3 "<|python_tag|>foo"; sample_token 4 "bar"].

Definition after_marker_tokens : list (@TokenResult sample_models) :=
  [sample_token 1 "Hello"; sample_token 2 "<|eot_id|>";
   sample_token 5 "more"].

Definition untagged_tool_call_tokens : list (@TokenResult sample_models) :=
  [sample_token 7 "get_weather"; sample_token 7 "()"].


(** ** The provider, and sessions side by side *)

(** What [__init__] reads of the configuration. *)
Record MetaReferenceImplConfig : Type := {
  config_model : string
}.

Section Provider.

Context {E : LlamaModels}.

(** [LlamaModelParallelGenerator(config)]: the generator process that
    [initialize] starts for a configuration, as the token results it gives
    for a request. *)
Variable LlamaModelParallelGenerator :
  MetaReferenceImplConfig -> ChatCompletionRequest -> list TokenResult.

(** [get_provider_impl]: [__init__] (lines 48-54), which looks the
    configured model up, then [initialize] (lines 56-58). *)
Definition get_provider_impl (config : MetaReferenceImplConfig)
  : Exception + MetaReferenceInferenceImpl :=
  match resolve_model (config_model config) with
  | None =>
      inl (RuntimeError
             (String.append "Unknown model: "
                (String.append (config_model config)
                   ", Run `llama model list`")))
  | Some model =>
      inr {| self_model := model;
             generator_chat_completion :=
               LlamaModelParallelGenerator config |}
  end.

Variable self : MetaReferenceInferenceImpl.

(** One turn of the event loop: the [__anext__] of the [i]-th generator
    runs up to its next [yield], the others stay where they are.  Nothing
    between two yields of [chat_completion] gives control back, so the
    turns do not overlap. *)
Fixpoint anext_at (i : nat) (sem : Semaphore) (frames : list Frame)
  : list Frame * Semaphore :=
  match frames with
  | [] => ([], sem)
  | frame :: frames' =>
      match i with
      | O =>
          let '(_, frame1, sem1) := chat_completion_anext self sem frame in
          (frame1 :: frames', sem1)
      | S i' =>
          let '(frames1, sem1) := anext_at i' sem frames' in
          (frame :: frames1, sem1)
      end
  end.

(** The turns of a schedule, one after the other. *)
Fixpoint event_loop (schedule : list nat) (sem : Semaphore)
    (frames : list Frame) : list Frame * Semaphore :=
  match schedule with
  | [] => (frames, sem)
  | i :: schedule' =>
      let '(frames1, sem1) := anext_at i sem frames in
      event_loop schedule' sem1 frames1
  end.

Definition count_generating (frames : list Frame) : nat :=
  List.length (filter generating frames).

(** The stop reason an event carries. *)
Definition chunk_stop_reason (c : Chunk) : option StopReason :=
  match c with
  | ChatCompletionResponseStreamChunk event => event_stop_reason event
  | ChatCompletionResponse _ _ => None
  end.

(** The progress chunk that shows the text of one fragment, as plain text
    or, in tool-call mode, as tool-call content. *)
Definition fragment_chunk (in_tool_call : bool) (token_result : TokenResult)
  : Chunk :=
  progress_chunk
    (if in_tool_call
     then DeltaToolCall {| content := ContentStr (text token_result);
                           parse_status := in_progress |}
     else DeltaStr (text token_result))
    None.

End Provider.

Definition sample_generator (toks : list (@TokenResult sample_models))
  : MetaReferenceImplConfig -> ChatCompletionRequest
    -> list (@TokenResult sample_models) :=
  fun _ _ => toks.

Definition sample_config : MetaReferenceImplConfig :=
  {| config_model := "Meta-Llama3.1-8B-Instruct" |}.

Definition two_marker_tokens : list (@TokenResult sample_models) :=
  [sample_token 1 "Hi"; sample_token 2 "<|eot_id|>";
   sample_token 3 "<|eom_id|>"; sample_token 4 "tail"].

(** * The safety provider

    [llama_toolchain/safety/meta_reference/safety.py]: which shield answers
    a shield definition, and what [run_shields] returns. *)

(** The exceptions the code outside the inference provider raises. *)
Inductive PyException : Set :=
| AssertionError (msg : string)
| ValueError (msg : string)
| IndexError (msg : string)
| NameError (msg : string)
| HTTPError (msg : string).

Module Safety.

(** The members of [BuiltinShield] the provider knows. *)
Inductive BuiltinShield : Set :=
| llama_guard
| code_scanner_guard
| third_party_shield
| injection_shield
| jailbreak_shield.

(** [ShieldDefinition.shield_type]: one of these, or any other value, given
    by its text. *)
Inductive ShieldType : Set :=
| Builtin (shield : BuiltinShield)
| OtherShieldType (name : string).

Record ShieldDefinition : Set := {
  shield_type : ShieldType
}.

Record LlamaGuardShieldConfig : Set := {
  llama_guard_model : string;
  excluded_categories : list string;
  disable_input_check : bool;
  disable_output_check : bool
}.

Record PromptGuardShieldConfig : Set := {
  prompt_guard_model : string
}.

Record SafetyConfig : Set := {
  llama_guard_shield : option LlamaGuardShieldConfig;
  prompt_guard_shield : option PromptGuardShieldConfig
}.

(** The shield classes of [.shields] and [model_local_dir] are taken as
    given: each [instance] as the shield it returns, [run] of a shield as
    the response it gives.  A call of these that raises is outside the
    model. *)
Class Shields {E : LlamaModels} : Type := {
  Shield : Type;
  Message : Type;
  ShieldResponse : Type;
  model_local_dir : Model -> string;
  LlamaGuardShield_instance : string -> Shield;
  JailbreakShield_instance : string -> Shield;
  InjectionShield_instance : string -> Shield;
  CodeScannerShield_instance : Shield;
  ThirdPartyShield_instance : Shield;
  shield_run : Shield -> list Message -> ShieldResponse
}.

Section MetaReferenceSafety.

Context {E : LlamaModels} {S : Shields}.

Record RunShieldRequest : Type := {
  request_messages : list Message;
  request_shields : list ShieldDefinition
}.

Record RunShieldResponse : Type := {
  responses : list ShieldResponse
}.

(** Lines 36-40. *)
Definition resolve_and_get_path (model_name : string)
  : PyException + string :=
  match resolve_model model_name with
  | None =>
      inl (AssertionError
             (String.append "Could not resolve model " model_name))
  | Some model => inr (model_local_dir model)
  end.

(** [MetaReferenceSafetyImpl.initialize] (lines 47-61): how it ends. *)
Definition initialize (config : SafetyConfig) : PyException + unit :=
  match
    match llama_guard_shield config with
    | Some shield_cfg =>
        match resolve_and_get_path (llama_guard_model shield_cfg) with
        | inl e => inl e
        | inr _ => inr tt
        end
    | None => inr tt
    end
  with
  | inl e => inl e
  | inr _ =>
      match prompt_guard_shield config with
      | Some shield_cfg =>
          match resolve_and_get_path (prompt_guard_model shield_cfg) with
          | inl e => inl e
          | inr _ => inr tt
          end
      | None => inr tt
      end
  end.

(** Lines 76-102. *)
Definition shield_config_to_shield (sc : ShieldDefinition)
    (safety_config : SafetyConfig) : PyException + Shield :=
  match shield_type sc with
  | Builtin llama_guard =>
      match llama_guard_shield safety_config with
      | None =>
          inl (AssertionError
                 "Cannot use LlamaGuardShield since not present in config")
      | Some shield_cfg =>
          match resolve_and_get_path (llama_guard_model shield_cfg) with
          | inl e => inl e
          | inr model_dir => inr (LlamaGuardShield_instance model_dir)
          end
      end
  | Builtin jailbreak_shield =>
      match prompt_guard_shield safety_config with
      | None =>
          inl (AssertionError
                 "Cannot use Jailbreak Shield since Prompt Guard not present in config")
      | Some shield_cfg =>
          match resolve_and_get_path (prompt_guard_model shield_cfg) with
          | inl e => inl e
          | inr model_dir => inr (JailbreakShield_instance model_dir)
          end
      end
  | Builtin injection_shield =>
      match prompt_guard_shield safety_config with
      | None =>
          inl (AssertionError
                 "Cannot use PromptGuardShield since not present in config")
      | Some shield_cfg =>
          match resolve_and_get_path (prompt_guard_model shield_cfg) with
          | inl e => inl e
          | inr model_dir => inr (InjectionShield_instance model_dir)
          end
      end
  | Builtin code_scanner_guard => inr CodeScannerShield_instance
  | Builtin third_party_shield => inr ThirdPartyShield_instance
  | OtherShieldType name =>
      inl (ValueError (String.append "Unknown shield type: " name))
  end.

(** The list comprehension of line 67: the shields of the definitions, in
    order, or the exception of the first definition that has none. *)
Fixpoint shields_of (scs : list ShieldDefinition) (config : SafetyConfig)
  : PyException + list Shield :=
  match scs with
  | [] => inr []
  | sc :: scs' =>
      match shield_config_to_shield sc config with
      | inl e => inl e
      | inr shield =>
          match shields_of scs' config with
          | inl e => inl e
          | inr shields => inr (shield :: shields)
          end
      end
  end.

(** [run_shields] (lines 63-73); [asyncio.gather] gives the results in the
    order of its arguments. *)
Definition run_shields (config : SafetyConfig) (request : RunShieldRequest)
  : PyException + RunShieldResponse :=
  match shields_of (request_shields request) config with
  | inl e => inl e
  | inr shields =>
      inr {| responses :=
               map (fun shield => shield_run shield (request_messages request))
                 shields |}
  end.

End MetaReferenceSafety.

End Safety.

(** Sample shields: a shield is the name of its class with the directory it
    was asked for, and answers with its name and the number of messages. *)
Definition sample_shields : @Safety.Shields sample_models :=
  @Safety.Build_Shields sample_models
    string string (string * nat)%type
    (fun model : string => String.append "~/.llama/" model)
    (fun d => String.append "LlamaGuard:" d)
    (fun d => String.append "Jailbreak:" d)
    (fun d => String.append "Injection:" d)
    "CodeScanner"
    "ThirdParty"
    (fun shield messages => (shield, List.length messages)).

Definition sample_safety_config : Safety.SafetyConfig :=
  {| Safety.llama_guard_shield :=
       Some {| Safety.llama_guard_model := "Meta-Llama3.1-8B-Instruct";
               Safety.excluded_categories := [];
               Safety.disable_input_check := false;
               Safety.disable_output_check := false |};
     Safety.prompt_guard_shield := None |}.

Definition sample_shield_definition (b : Safety.BuiltinShield)
  : Safety.ShieldDefinition :=
  {| Safety.shield_type := Safety.Builtin b |}.

Definition sample_shield_request
  : @Safety.RunShieldRequest sample_models sample_shields :=
  @Safety.Build_RunShieldRequest sample_models sample_shields
    ["hello"; "world"]
    [sample_shield_definition Safety.code_scanner_guard;
     sample_shield_definition Safety.llama_guard].

Definition sample_shield_response
  : @Safety.RunShieldResponse sample_models sample_shields :=
  @Safety.Build_RunShieldResponse sample_models sample_shields
    [("CodeScanner", 2);
     ("LlamaGuard:~/.llama/Meta-Llama3.1-8B-Instruct", 2)].

(** * The resumable downloader

    [llama_toolchain/cli/download.py]: [ResumableDownloader] and the plan
    [_meta_download] makes for the files of a model.  The server, the file
    and the disk are given to [download] as what they answer: the response
    to the [HEAD] request, the content of the output file if it exists, the
    free space, and, one for each [GET] the loop sends, what arrives. *)

Module Download.

Local Open Scope Z_scope.

(** The fields of a downloader.  [start_time] and the speed computed from
    it are clock readings and floats, and are left out. *)
Record ResumableDownloader : Set := {
  url : string;
  output_file : string;
  buffer_size : Z;
  total_size : Z;
  downloaded_size : Z;
  start_size : Z
}.

(** [__init__] (lines 160-173). *)
Definition new (url output_file : string) (total_size buffer_size : Z)
  : ResumableDownloader :=
  {| url := url; output_file := output_file; buffer_size := buffer_size;
     total_size := total_size; downloaded_size := 0; start_size := 0 |}.

Definition default_buffer_size : Z := 32 * 1024.

(** What comes back from [client.head] and [raise_for_status]: an
    exception, or the final address and the [Content-Length] header, if
    there is one, as the number [int] reads from it. *)
Inductive HeadResult : Set :=
| HeadRaises (e : PyException)
| HeadResponse (response_url : string) (content_length : option Z).

(** [httpx.HTTPError], or any other [Exception]. *)
Inductive Failure : Set :=
| HttpFailure
| OtherFailure.

(** What one [GET] of the loop meets: an exception before the output file
    is opened, or a stream whose chunks arrive in order and which then
    ends, or breaks with an exception. *)
Inductive Attempt : Set :=
| Refused (cause : Failure)
| Streamed (chunks : list (list Byte.byte)) (broken : option Failure).

(** What [download] does that can be seen from outside, in order. *)
Inductive Event : Set :=
| Head (url : string)
| Get (url : string) (first last : Z)
| PrintAlreadyDownloaded
| PrintProgress (downloaded total : Z)
| PrintInterrupted
| PrintErrorOccurred
| PrintFinished.

(** How a call ends; [Running] is a loop that still goes on when the
    attempts given are used up. *)
Inductive Status : Set :=
| Returned
| Raised (e : PyException)
| Running.

Definition unable_to_determine : PyException :=
  ValueError
    "Unable to determine file size. The server might not support range requests.".

(** [get_file_info] (lines 175-189): the downloader afterwards, and the
    exception if it raises. *)
Definition get_file_info (self : ResumableDownloader) (head : HeadResult)
  : ResumableDownloader * option PyException :=
  if 0 <? total_size self then (self, None)
  else
    match head with
    | HeadRaises e => (self, Some e)
    | HeadResponse response_url content_length =>
        let self1 :=
          {| url := response_url;
             output_file := output_file self;
             buffer_size := buffer_size self;
             total_size := match content_length with
                           | Some n => n
                           | None => 0
                           end;
             downloaded_size := downloaded_size self;
             start_size := start_size self |} in
        if total_size self1 =? 0 then (self1, Some unable_to_determine)
        else (self1, None)
    end.

(** [has_disk_space] (lines 266-269), given the free space of the
    directory. *)
Definition has_disk_space (free_space file_size : Z) : bool :=
  file_size <? free_space.

(** Line 218. *)
Definition max_chunk_size : Z := 27000000000.

Definition failure_event (cause : Failure) : Event :=
  match cause with
  | HttpFailure => PrintInterrupted
  | OtherFailure => PrintErrorOccurred
  end.

(** Lines 232-235: each chunk is appended to the file and counted, and the
    progress is printed. *)
Fixpoint write_chunks (self : ResumableDownloader) (content : list Byte.byte)
    (chunks : list (list Byte.byte))
  : ResumableDownloader * list Byte.byte * list Event :=
  match chunks with
  | [] => (self, content, [])
  | chunk :: chunks' =>
      let self1 :=
        {| url := url self;
           output_file := output_file self;
           buffer_size := buffer_size self;
           total_size := total_size self;
           downloaded_size :=
             downloaded_size self + Z.of_nat (List.length chunk);
           start_size := start_size self |} in
      let '(self2, content2, events) :=
        write_chunks self1 (content ++ chunk) chunks' in
      (self2, content2,
       PrintProgress (downloaded_size self1) (total_size self1) :: events)
  end.

(** The [while True] loop (lines 213-242), one attempt for each turn. *)
Fixpoint download_loop (self : ResumableDownloader)
    (file : option (list Byte.byte)) (attempts : list Attempt)
  : Status * ResumableDownloader * option (list Byte.byte) * list Event :=
  if total_size self <=? downloaded_size self
  then (Returned, self, file, [PrintFinished])
  else
    match attempts with
    | [] => (Running, self, file, [])
    | attempt :: attempts' =>
        let request_size :=
          Z.min (total_size self - downloaded_size self) max_chunk_size in
        let get :=
          Get (url self) (downloaded_size self)
            (downloaded_size self + request_size) in
        match attempt with
        | Refused cause =>
            let '(status, self1, file1, events) :=
              download_loop self file attempts' in
            (status, self1, file1, get :: failure_event cause :: events)
        | Streamed chunks broken =>
            let '(self1, content1, printed) :=
              write_chunks self
                (match file with Some content => content | None => [] end)
                chunks in
            let '(status, self2, file2, events) :=
              download_loop self1 (Some content1) attempts' in
            (status, self2, file2,
             get :: printed
             ++ match broken with
                | Some cause => [failure_event cause]
                | None => []
                end
             ++ events)
        end
    end.

(** [download] (lines 191-242).  The message of line 205 is formatted
    with [M], a name that exists only inside [print_progress]: evaluating
    it raises [NameError], before the [ValueError] of line 209. *)
Definition download (self : ResumableDownloader) (head : HeadResult)
    (file : option (list Byte.byte)) (free_space : Z) (attempts : list Attempt)
  : Status * ResumableDownloader * option (list Byte.byte) * list Event :=
  let head_events :=
    if 0 <? total_size self then [] else [Head (url self)] in
  match get_file_info self head with
  | (self1, Some e) => (Raised e, self1, file, head_events)
  | (self1, None) =>
      let self2 :=
        match file with
        | Some content =>
            {| url := url self1;
               output_file := output_file self1;
               buffer_size := buffer_size self1;
               total_size := total_size self1;
               downloaded_size := Z.of_nat (List.length content);
               start_size := Z.of_nat (List.length content) |}
        | None => self1
        end in
      if match file with
         | Some _ => total_size self2 <=? downloaded_size self2
         | None => false
         end
      then (Returned, self2, file, head_events ++ [PrintAlreadyDownloaded])
      else
        let additional_size := total_size self2 - downloaded_size self2 in
        if negb (has_disk_space free_space additional_size)
        then (Raised (NameError "name 'M' is not defined"), self2, file,
              head_events)
        else
          let '(status, self3, file3, events) :=
            download_loop self2 file attempts in
          (status, self3, file3, head_events ++ events)
  end.

(** The bar of [print_progress] (lines 246-248), as code points. *)
Definition bar_length : Z := 50.

Definition filled_length (self : ResumableDownloader) : Z :=
  (bar_length * downloaded_size self) / total_size self.

Definition full_block : Z := 9608.
Definition hyphen : Z := 45.

Definition bar (self : ResumableDownloader) : list Z :=
  repeat full_block (Z.to_nat (filled_length self))
  ++ repeat hyphen (Z.to_nat (bar_length - filled_length self)).

(** The parts of what [download] and [download_loop] give. *)
Definition status_of
    (r : Status * ResumableDownloader * option (list Byte.byte) * list Event)
  : Status := fst (fst (fst r)).

Definition downloader_of
    (r : Status * ResumableDownloader * option (list Byte.byte) * list Event)
  : ResumableDownloader := snd (fst (fst r)).

Definition file_of
    (r : Status * ResumableDownloader * option (list Byte.byte) * list Event)
  : option (list Byte.byte) := snd (fst r).

Definition events_of
    (r : Status * ResumableDownloader * option (list Byte.byte) * list Event)
  : list Event := snd r.

(** The [Get] events among [events], and the bytes of an attempt. *)
Definition is_get (event : Event) : bool :=
  match event with
  | Get _ _ _ => true
  | _ => false
  end.

Definition gets (events : list Event) : list Event := filter is_get events.

(** What an event may be when it is printed by [print_progress] or reports
    a broken attempt: no [Get], and progress only out of [total]. *)
Definition printed_for (total : Z) (event : Event) : Prop :=
  is_get event = false
  /\ forall d t, event = PrintProgress d t -> t = total.

Definition attempt_bytes (attempt : Attempt) : list Byte.byte :=
  match attempt with
  | Refused _ => []
  | Streamed chunks _ => List.concat chunks
  end.

Definition attempts_bytes (attempts : list Attempt) : list Byte.byte :=
  List.concat (map attempt_bytes attempts).

Definition file_content (file : option (list Byte.byte)) : list Byte.byte :=
  match file with
  | Some content => content
  | None => []
  end.

(** ** The downloads of a model (lines 116-136) *)

(** [sub in s] *)
Fixpoint contains (sub s : string) : bool :=
  String.prefix sub s
  || match s with
     | EmptyString => false
     | String _ s' => contains sub s'
     end.

(** [s.replace(old, new)] for an [old] of one character. *)
Fixpoint replace (old : ascii) (new s : string) : string :=
  match s with
  | EmptyString => EmptyString
  | String c s' =>
      if Ascii.eqb c old then String.append new (replace old new s')
      else String c (replace old new s')
  end.

(** What [llama_meta_net_info] gives for a model. *)
Record LlamaDownloadInfo : Set := {
  folder : string;
  files : list string;
  pth_size : Z
}.

Section MetaDownload.

(** [str(output_dir / f)] *)
Variable path_join : string -> string -> string.

(** Lines 128-132: the downloader made for the file [f]. *)
Definition downloader_for (output_dir meta_url : string)
    (info : LlamaDownloadInfo) (f : string) : ResumableDownloader :=
  new (replace "*"%char
         (String.append (folder info) (String.append "/" f)) meta_url)
      (path_join output_dir f)
      (if contains "consolidated" f then pth_size info else 0)
      default_buffer_size.

End MetaDownload.

End Download.

Definition sample_bytes (n : nat) : list Byte.byte := repeat Byte.x00 n.

Definition sample_downloader : Download.ResumableDownloader :=
  Download.new "https://example.net/f" "/tmp/f" 10
    Download.default_buffer_size.

Definition sample_head : Download.HeadResult :=
  Download.HeadRaises (HTTPError "not asked").

Definition sample_file : option (list Byte.byte) := Some (sample_bytes 4).

Definition sample_attempts : list Download.Attempt :=
  [Download.Streamed [sample_bytes 3] (Some Download.HttpFailure);
   Download.Refused Download.OtherFailure;
   Download.Streamed [sample_bytes 2; sample_bytes 2] None;
   Download.Refused Download.HttpFailure].

Definition sample_path_join (output_dir f : string) : string :=
  String.append output_dir (String.append "/" f).

Definition sample_info : Download.LlamaDownloadInfo :=
  {| Download.folder := "Meta-Llama3.1-8B";
     Download.files := ["consolidated.00.pth"; "params.json"];
     Download.pth_size := 100 |}.

(** * Custom tools

    [llama_toolchain/agentic_system/tools/custom/datatypes.py]:
    [SingleMessageCustomTool.run]. *)

Module CustomTool.

(** The parts of a tool call, the values a tool works on, [json.dumps] and
    [interpret_content_as_attachment] are taken as given.  [json_dumps]
    gives the text, or, on the left, the message of the exception it
    raises. *)
Class ToolRuntime {E : LlamaModels} : Type := {
  ToolName : Type;
  ToolArguments : Type;
  ToolResult : Type;
  Attachment : Type;
  call_id : ToolCall -> string;
  tool_name : ToolCall -> ToolName;
  arguments : ToolCall -> ToolArguments;
  json_dumps : ToolResult -> string + string;
  interpret_content_as_attachment : string -> option Attachment
}.

Section SingleMessageCustomTool.

Context {E : LlamaModels} {R : ToolRuntime}.

(** The content of a tool response: text, or an attachment. *)
Inductive ResponseContent : Type :=
| ContentText (s : string)
| ContentAttachment (attachment : Attachment).

Record ToolResponseMessage : Type := {
  response_call_id : string;
  response_tool_name : ToolName;
  response_content : ResponseContent
}.

(** [run_impl] of a tool: its result, or, on the left, the message of the
    exception it raises. *)
Variable run_impl : ToolArguments -> string + ToolResult.

(** Lines 88-92. *)
Definition response_str (tool_call : ToolCall) : string :=
  match run_impl (arguments tool_call) with
  | inl e => String.append "Error when running tool: " e
  | inr response =>
      match json_dumps response with
      | inl e => String.append "Error when running tool: " e
      | inr text => text
      end
  end.

(** [run] (lines 81-102). *)
Definition run (messages : list CompletionMessage)
  : PyException + list ToolResponseMessage :=
  match messages with
  | [message] =>
      match tool_calls message with
      | [] => inl (IndexError "list index out of range")
      | tool_call :: _ =>
          inr [{| response_call_id := call_id tool_call;
                  response_tool_name := tool_name tool_call;
                  response_content :=
                    match interpret_content_as_attachment
                            (response_str tool_call) with
                    | Some attachment => ContentAttachment attachment
                    | None => ContentText (response_str tool_call)
                    end |}]
      end
  | _ => inl (AssertionError "Expected single message")
  end.

End SingleMessageCustomTool.

End CustomTool.

(** A sample runtime: the arguments of a tool call are its text, results
    are numbers, of which 13 cannot be written as JSON, and a text
    that starts with "file:" is an attachment. *)
Definition sample_runtime : @CustomTool.ToolRuntime sample_models :=
  @CustomTool.Build_ToolRuntime sample_models
    string string nat string
    (fun tool_call : string => String.append "call-" tool_call)
    (fun tool_call : string => tool_call)
    (fun tool_call : string => tool_call)
    (fun n => if Nat.eqb n 13 then inl "not serializable"
              else inr (if Nat.eqb n 2 then "2" else "0"))
    (fun text => if String.prefix "file:" text then Some text else None).

Definition sample_run_impl (tool_arguments : string) : string + nat :=
  if String.eqb tool_arguments "get_weather" then inr 2
  else inl "no such tool".

Definition sample_tool_message (calls : list string)
  : @CompletionMessage sample_models :=
  (end_of_turn, calls).

(** * Properties *)

(** ** Strings *)

Lemma append_assoc (a b c : string) :
  String.append (String.append a b) c = String.append a (String.append b c).
Proof.
  induction a as [|x a IH]; simpl; [reflexivity|].
  now rewrite IH.
Qed.

Lemma append_empty_r (a : string) : String.append a "" = a.
Proof.
  induction a as [|x a IH]; simpl; [reflexivity|].
  now rewrite IH.
Qed.

Lemma startswith_append (a b p : string) :
  startswith a p = true -> startswith (String.append a b) p = true.
Proof.
  unfold startswith. revert a.
  induction p as [|x p IH]; intros a H.
  - now destruct (String.append a b).
  - destruct a as [|y a]; simpl in *; [discriminate|].
    destruct (ascii_dec x y); [now apply IH | discriminate].
Qed.

Lemma startswith_length (a p : string) :
  startswith a p = true -> String.length p <= String.length a.
Proof.
  unfold startswith. revert a.
  induction p as [|x p IH]; intros a H; simpl; [lia|].
  destruct a as [|y a]; simpl in *; [discriminate|].
  destruct (ascii_dec x y); [|discriminate].
  apply IH in H. lia.
Qed.

Lemma slice_from_append (n : nat) (a b : string) :
  n <= String.length a ->
  slice_from n (String.append a b) = String.append (slice_from n a) b.
Proof.
  revert a. induction n as [|n IH]; intros a H; simpl.
  - now destruct (String.append a b); destruct a.
  - destruct a as [|x a]; simpl in *; [lia|].
    apply IH. lia.
Qed.

(** A prefix of [a ++ b] either lies within [a] or ends, with a part that
    is not empty, in [b]. *)
Lemma startswith_append_cases (a b p : string) :
  startswith (String.append a b) p = true ->
  startswith a p = true
  \/ exists q, q <> "" /\ p = String.append a q /\ startswith b q = true.
Proof.
  unfold startswith. revert a.
  induction p as [|x p IH]; intros a H.
  - left. now destruct a.
  - destruct a as [|y a]; simpl in H.
    + right. exists (String x p). repeat split; [discriminate | exact H].
    + simpl. destruct (ascii_dec x y) as [->|]; [|discriminate].
      destruct (IH a H) as [Ha | (q & Hq & -> & Hb)]; [now left|].
      right. exists q. now repeat split.
Qed.

Lemma suffixes_append (a q : string) : In q (suffixes (String.append a q)).
Proof.
  induction a as [|x a IH]; simpl.
  - destruct q; simpl; now left.
  - now right.
Qed.

(** Once an end marker has been appended to a buffer that does not start
    with the tag, no later text can make it start with the tag. *)
Lemma no_tag_after_marker (b m rest : string) :
  startswith b python_tag = false ->
  is_marker m = true ->
  startswith (String.append b (String.append m rest)) python_tag = false.
Proof.
  intros Hb Hm.
  destruct (startswith (String.append b (String.append m rest)) python_tag)
    eqn:H; [exfalso | reflexivity].
  apply startswith_append_cases in H.
  destruct H as [H | (q & Hq & Hp & H)]; [congruence|].
  pose proof (suffixes_append b q) as Hin. rewrite <- Hp in Hin.
  unfold is_marker in Hm. apply orb_true_iff in Hm.
  assert (m = eot_id \/ m = eom_id) as [-> | ->]
    by (destruct Hm as [Hm | Hm]; apply String.eqb_eq in Hm; auto).
  all: simpl in Hin;
    repeat (destruct Hin as [<- | Hin];
            [solve [vm_compute in H; discriminate | now apply Hq] |]);
    exact Hin.
Qed.

Section Properties.

Context {E : LlamaModels}.

Implicit Types (request : ChatCompletionRequest) (l : Locals).
Implicit Types (t : TokenResult) (toks : list TokenResult).
Implicit Types (c : Chunk) (cs : list Chunk).

(** ** One iteration *)

Ltac break_loop_body request l t :=
  unfold loop_body;
  destruct (enters_tool_call l t) eqn:?;
  [ | destruct (request_stream request) eqn:?; simpl;
      [ destruct (classify (stop_reason l) (text t)) as [? ?] eqn:? | ] ].

Lemma loop_body_tokens request l t :
  tokens (fst (loop_body request l t)) = tokens l ++ [token t].
Proof. break_loop_body request l t; reflexivity. Qed.

Lemma loop_body_ipython request l t :
  ipython (fst (loop_body request l t)) = ipython l || enters_tool_call l t.
Proof.
  break_loop_body request l t; simpl;
    try (now rewrite orb_false_r); now rewrite orb_true_r.
Qed.

Lemma loop_body_buffer request l t :
  buffer (fst (loop_body request l t))
  = if enters_tool_call l t
    then slice_from (String.length python_tag)
           (String.append (buffer l) (text t))
    else String.append (buffer l) (text t).
Proof. break_loop_body request l t; reflexivity. Qed.

Lemma loop_body_enters request l t :
  enters_tool_call l t = true ->
  snd (loop_body request l t) = [started_chunk]
  /\ stop_reason (fst (loop_body request l t)) = stop_reason l.
Proof. intros H. unfold loop_body. now rewrite H. Qed.

Lemma loop_body_not_streaming request l t :
  request_stream request = false ->
  enters_tool_call l t = false ->
  snd (loop_body request l t) = []
  /\ stop_reason (fst (loop_body request l t)) = stop_reason l
  /\ logprobs (fst (loop_body request l t))
     = if request_logprobs request then logprobs l ++ [logprob t]
       else logprobs l.
Proof. intros Hs H. unfold loop_body. now rewrite H, Hs. Qed.

Lemma loop_body_streaming request l t :
  request_stream request = true ->
  enters_tool_call l t = false ->
  stop_reason (fst (loop_body request l t))
  = fst (classify (stop_reason l) (text t))
  /\ snd (loop_body request l t)
     = match fst (classify (stop_reason l) (text t)) with
       | None =>
           [progress_chunk
              (if ipython l
               then DeltaToolCall
                      {| content :=
                           ContentStr (snd (classify (stop_reason l) (text t)));
                         parse_status := in_progress |}
               else DeltaStr (snd (classify (stop_reason l) (text t))))
              None]
       | Some _ => []
       end.
Proof.
  intros Hs H. unfold loop_body. rewrite H, Hs. simpl.
  destruct (classify (stop_reason l) (text t)) as [sr tx]. simpl.
  now destruct sr.
Qed.

Lemma classify_marker (sr : option StopReason) (fragment : string) :
  is_marker fragment = true ->
  classify sr fragment
  = (Some (if String.eqb fragment eot_id then end_of_turn else end_of_message),
     "").
Proof.
  unfold is_marker, classify. intros H.
  destruct (String.eqb fragment eot_id); [reflexivity|].
  simpl in H. now rewrite H.
Qed.

Lemma classify_plain (sr : option StopReason) (fragment : string) :
  is_marker fragment = false -> classify sr fragment = (sr, fragment).
Proof.
  unfold is_marker, classify. intros H.
  apply orb_false_iff in H. destruct H as [-> ->]. reflexivity.
Qed.

(** ** The loop *)

Lemma run_loop_cons request l t toks :
  run_loop request l (t :: toks)
  = (fst (run_loop request (fst (loop_body request l t)) toks),
     snd (loop_body request l t)
     ++ snd (run_loop request (fst (loop_body request l t)) toks)).
Proof.
  cbn [run_loop]. destruct (loop_body request l t) as [l1 out].
  cbn [fst snd]. now destruct (run_loop request l1 toks).
Qed.

Lemma run_loop_app request l toks toks' :
  run_loop request l (toks ++ toks')
  = (fst (run_loop request (fst (run_loop request l toks)) toks'),
     snd (run_loop request l toks)
     ++ snd (run_loop request (fst (run_loop request l toks)) toks')).
Proof.
  revert l. induction toks as [|t toks IH]; intros l.
  - cbn [run_loop app fst snd]. now destruct (run_loop request l toks').
  - rewrite <- app_comm_cons, !run_loop_cons, IH. cbn [fst snd].
    now rewrite app_assoc.
Qed.

Lemma locals_after_snoc request toks t :
  locals_after request (toks ++ [t])
  = fst (loop_body request (locals_after request toks) t).
Proof.
  unfold locals_after. rewrite run_loop_app, run_loop_cons. reflexivity.
Qed.

Lemma run_loop_tokens request l toks :
  tokens (fst (run_loop request l toks)) = tokens l ++ map token toks.
Proof.
  revert l. induction toks as [|t toks IH]; intros l.
  - cbn. now rewrite app_nil_r.
  - rewrite run_loop_cons. cbn [fst map]. rewrite IH, loop_body_tokens.
    now rewrite <- app_assoc.
Qed.

(** ** Entering tool-call mode *)

Lemma enters_tool_call_in_tool_call l t :
  ipython l = true -> enters_tool_call l t = false.
Proof. intros H. unfold enters_tool_call. now rewrite H. Qed.

Lemma enters_tool_call_text l t :
  ipython l = false ->
  enters_tool_call l t
  = startswith (String.append (buffer l) (text t)) python_tag.
Proof. intros H. unfold enters_tool_call. now rewrite H. Qed.

(** Once in tool-call mode the loop stays there, never takes the entry
    branch again, and only appends to the buffer. *)
Lemma run_loop_in_tool_call request l toks :
  ipython l = true ->
  ipython (fst (run_loop request l toks)) = true
  /\ entries request l toks = 0
  /\ buffer (fst (run_loop request l toks))
     = String.append (buffer l) (join (map text toks)).
Proof.
  revert l. induction toks as [|t toks IH]; intros l Hl.
  - cbn. now rewrite append_empty_r.
  - rewrite run_loop_cons. cbn [fst entries map join].
    pose proof (enters_tool_call_in_tool_call l t Hl) as Hno.
    destruct (IH (fst (loop_body request l t))) as (Hi & He & Hb).
    { now rewrite loop_body_ipython, Hl. }
    rewrite Hi, He, Hb, loop_body_buffer, Hno, append_assoc.
    now repeat split.
Qed.

(** Outside tool-call mode: the mode is entered exactly when some
    cumulative buffer starts with the tag, the entry branch is taken once
    in that case and never otherwise, and the tag is cut from the front of
    everything that was appended. *)
Lemma run_loop_detects request l toks :
  ipython l = false ->
  (ipython (fst (run_loop request l toks)) = true
   <-> exists k, 1 <= k <= List.length toks
       /\ startswith
            (String.append (buffer l) (join (firstn k (map text toks))))
            python_tag = true)
  /\ entries request l toks
     = (if ipython (fst (run_loop request l toks)) then 1 else 0)
  /\ buffer (fst (run_loop request l toks))
     = (if ipython (fst (run_loop request l toks))
        then slice_from (String.length python_tag)
               (String.append (buffer l) (join (map text toks)))
        else String.append (buffer l) (join (map text toks))).
Proof.
  revert l. induction toks as [|t toks IH]; intros l Hl.
  - cbn [run_loop fst entries map join List.length]. rewrite Hl.
    rewrite append_empty_r. repeat split; try discriminate.
    intros (k & Hk & _). lia.
  - rewrite run_loop_cons. cbn [fst entries map join List.length].
    pose proof (enters_tool_call_text l t Hl) as Hent.
    destruct (enters_tool_call l t) eqn:Henters.
    + destruct (run_loop_in_tool_call request
                  (fst (loop_body request l t)) toks) as (Hi & He & Hb).
      { now rewrite loop_body_ipython, Henters, orb_true_r. }
      rewrite Hi, He, Hb, loop_body_buffer, Henters.
      repeat split.
      * intros _. exists 1. split; [lia|].
        cbn [firstn join]. destruct toks; cbn [firstn join];
          now rewrite append_empty_r.
      * rewrite <- append_assoc. symmetry. apply slice_from_append.
        now apply startswith_length.
    + destruct (IH (fst (loop_body request l t))) as (Hi & He & Hb).
      { now rewrite loop_body_ipython, Henters, Hl. }
      rewrite He, Hb, loop_body_buffer, Henters, append_assoc.
      repeat split; try reflexivity.
      * intros H. apply Hi in H. destruct H as (k & Hk & H).
        exists (S k). split; [lia|].
        cbn [firstn join]. rewrite loop_body_buffer, Henters in H.
        now rewrite <- append_assoc.
      * intros (k & Hk & H). apply Hi.
        destruct k as [|k]; [lia|]. cbn [firstn join] in H.
        destruct k as [|k].
        -- cbn [firstn join] in H. rewrite append_empty_r in H. congruence.
        -- exists (S k). split; [lia|].
           rewrite loop_body_buffer, Henters. now rewrite append_assoc.
Qed.

(** C6. The tag is looked for at the start of the cumulative buffer, so
    the mode is entered exactly when the texts of some first [k] fragments,
    joined, start with the tag, whether or not one fragment holds the whole
    tag; the entry branch is taken at most once in a session; and the
    buffer at the end is everything received, with the tag cut from its
    front exactly when the mode was entered. *)
Theorem tool_call_detection request toks :
  (ipython (locals_after request toks) = true
   <-> exists k, k <= List.length toks
       /\ startswith (join (firstn k (map text toks))) python_tag = true)
  /\ entries request initial_locals toks <= 1
  /\ entries request initial_locals toks
     = (if ipython (locals_after request toks) then 1 else 0)
  /\ buffer (locals_after request toks)
     = (if ipython (locals_after request toks)
        then slice_from (String.length python_tag) (join (map text toks))
        else join (map text toks)).
Proof.
  unfold locals_after.
  destruct (run_loop_detects request initial_locals toks eq_refl)
    as (Hi & He & Hb).
  cbn [initial_locals buffer String.append] in Hi, Hb.
  repeat split.
  - intros H. apply Hi in H. destruct H as (k & Hk & H).
    exists k. split; [lia | exact H].
  - intros (k & Hk & H). apply Hi. exists k. split; [|exact H].
    destruct k; [cbn [firstn join] in H; discriminate H | lia].
  - rewrite He. destruct (ipython _); lia.
  - exact He.
  - exact Hb.
Qed.

(** ** After a stop reason *)

(** In a streaming session the loop is always in one of three situations:
    in tool-call mode; or with a buffer that does not start with the tag
    and no stop reason yet; or with a buffer that no further text can make
    start with the tag. *)
Lemma streaming_locals request toks :
  request_stream request = true ->
  ipython (locals_after request toks) = true
  \/ (startswith (buffer (locals_after request toks)) python_tag = false
      /\ (stop_reason (locals_after request toks) = None
          \/ forall rest,
               startswith
                 (String.append (buffer (locals_after request toks)) rest)
                 python_tag = false)).
Proof.
  intros Hs. induction toks as [|t toks IH] using rev_ind.
  - right. split; [reflexivity | now left].
  - rewrite locals_after_snoc. set (l := locals_after request toks) in *.
    rewrite loop_body_ipython, loop_body_buffer.
    destruct (ipython l) eqn:Hl; [now left|].
    destruct IH as [IH | (Hb & IH)]; [discriminate|].
    destruct (enters_tool_call l t) eqn:Hent; [now left|].
    right. cbn [orb]. split.
    { now rewrite <- (enters_tool_call_text l t Hl). }
    destruct (loop_body_streaming request l t Hs Hent) as (-> & _).
    destruct (is_marker (text t)) eqn:Hm.
    + right. intros rest. rewrite append_assoc.
      now apply no_tag_after_marker.
    + rewrite (classify_plain _ _ Hm). cbn [fst].
      destruct IH as [IH | IH]; [now left | right].
      intros rest. rewrite append_assoc. apply IH.
Qed.

(** A fragment that is an end marker, or that comes once a stop reason is
    set, yields nothing, and leaves a stop reason set. *)
Lemma quiet_iteration request toks t :
  request_stream request = true ->
  stop_reason (locals_after request toks) <> None
  \/ is_marker (text t) = true ->
  snd (loop_body request (locals_after request toks) t) = []
  /\ stop_reason (locals_after request (toks ++ [t])) <> None.
Proof.
  intros Hs H. rewrite locals_after_snoc.
  set (l := locals_after request toks) in *.
  assert (enters_tool_call l t = false) as Hent.
  { destruct (ipython l) eqn:Hl;
      [now apply enters_tool_call_in_tool_call|].
    rewrite (enters_tool_call_text l t Hl).
    destruct (streaming_locals request toks Hs) as [Hi | (Hb & Hd)];
      fold l in Hi || fold l in Hb, Hd; [congruence|].
    destruct H as [H | H].
    - destruct Hd as [Hd | Hd]; [contradiction | apply Hd].
    - rewrite <- (append_empty_r (text t)).
      now apply no_tag_after_marker. }
  destruct (loop_body_streaming request l t Hs Hent) as (-> & ->).
  destruct (is_marker (text t)) eqn:Hm.
  - rewrite (classify_marker _ _ Hm). cbn [fst]. split; [reflexivity|].
    discriminate.
  - rewrite (classify_plain _ _ Hm). cbn [fst].
    destruct H as [H | H]; [|discriminate].
    destruct (stop_reason l); [|contradiction].
    split; [reflexivity | discriminate].
Qed.

Lemma quiet_loop request toks toks' :
  request_stream request = true ->
  stop_reason (locals_after request toks) <> None ->
  snd (run_loop request (locals_after request toks) toks') = [].
Proof.
  intros Hs. revert toks. induction toks' as [|t toks' IH]; intros toks H.
  - reflexivity.
  - rewrite run_loop_cons. cbn [snd].
    destruct (quiet_iteration request toks t Hs (or_introl H)) as (-> & H').
    rewrite <- locals_after_snoc. now apply IH.
Qed.

(** C8. In a streaming session, from the fragment that is an end marker,
    or from any fragment that comes once a stop reason is set, the loop
    yields nothing more: the chunks of the loop are those of the fragments
    before it.  The token ids keep being collected up to the last one. *)
Theorem no_progress_once_stopped
    (self : MetaReferenceInferenceImpl) request pre t post :
  request_stream request = true ->
  generator_chat_completion self request = pre ++ t :: post ->
  stop_reason (locals_after request pre) <> None
  \/ is_marker (text t) = true ->
  snd (run_loop request (locals_after request pre) (t :: post)) = []
  /\ loop_chunks self request = snd (run_loop request initial_locals pre)
  /\ tokens (final_locals self request) = map token (pre ++ t :: post).
Proof.
  intros Hs Hgen H.
  assert (snd (run_loop request (locals_after request pre) (t :: post)) = [])
    as Hquiet.
  { rewrite run_loop_cons. cbn [snd].
    destruct (quiet_iteration request pre t Hs H) as (-> & H').
    rewrite <- locals_after_snoc. now apply quiet_loop. }
  repeat split.
  - exact Hquiet.
  - unfold loop_chunks. rewrite Hgen, run_loop_app. cbn [snd].
    fold (locals_after request pre). rewrite Hquiet. apply app_nil_r.
  - unfold final_locals. rewrite Hgen. apply run_loop_tokens.
Qed.

(** ** What kind of chunk comes from where *)

Lemma count_event_type_app (ty : ChatCompletionResponseEventType) cs cs' :
  count_event_type ty (cs ++ cs')
  = count_event_type ty cs + count_event_type ty cs'.
Proof. unfold count_event_type. now rewrite filter_app, length_app. Qed.

Lemma count_status_app (s : ToolCallParseStatus) cs cs' :
  count_status s (cs ++ cs') = count_status s cs + count_status s cs'.
Proof. unfold count_status. now rewrite filter_app, length_app. Qed.

Lemma count_event_type_none (ty : ChatCompletionResponseEventType) cs :
  Forall (fun c => has_event_type ty c = false) cs ->
  count_event_type ty cs = 0.
Proof.
  unfold count_event_type. induction 1 as [|c cs Hc _ IH]; [reflexivity|].
  cbn [filter]. now rewrite Hc.
Qed.

Lemma count_status_none (s : ToolCallParseStatus) cs :
  Forall (fun c => has_status s c = false) cs -> count_status s cs = 0.
Proof.
  unfold count_status. induction 1 as [|c cs Hc _ IH]; [reflexivity|].
  cbn [filter]. now rewrite Hc.
Qed.

Lemma loop_body_chunks request l t :
  Forall loop_chunk (snd (loop_body request l t)).
Proof.
  destruct (enters_tool_call l t) eqn:Hent.
  - destruct (loop_body_enters request l t Hent) as (-> & _).
    now repeat constructor.
  - destruct (request_stream request) eqn:Hs.
    + destruct (loop_body_streaming request l t Hs Hent) as (_ & ->).
      destruct (fst (classify (stop_reason l) (text t))); [constructor|].
      destruct (ipython l); now repeat constructor.
    + destruct (loop_body_not_streaming request l t Hs Hent) as (-> & _).
      constructor.
Qed.

Lemma run_loop_chunks request l toks :
  Forall loop_chunk (snd (run_loop request l toks)).
Proof.
  revert l. induction toks as [|t toks IH]; intros l.
  - constructor.
  - rewrite run_loop_cons. cbn [snd]. apply Forall_app. split.
    + apply loop_body_chunks.
    + apply IH.
Qed.

(** Each [started] chunk of the loop marks one pass through the entry
    branch. *)
Lemma started_chunks_entries request l toks :
  count_status started (snd (run_loop request l toks))
  = entries request l toks.
Proof.
  revert l. induction toks as [|t toks IH]; intros l; [reflexivity|].
  rewrite run_loop_cons. cbn [snd entries].
  rewrite count_status_app, IH. f_equal.
  destruct (enters_tool_call l t) eqn:Hent.
  - now destruct (loop_body_enters request l t Hent) as (-> & _).
  - destruct (request_stream request) eqn:Hs.
    + destruct (loop_body_streaming request l t Hs Hent) as (_ & ->).
      destruct (fst (classify (stop_reason l) (text t))); [reflexivity|].
      now destruct (ipython l).
    + now destruct (loop_body_not_streaming request l t Hs Hent)
        as (-> & _).
Qed.

Lemma tool_call_chunks_progress l :
  Forall (fun c => has_event_type progress c = true) (tool_call_chunks l).
Proof.
  unfold tool_call_chunks. apply Forall_app. split.
  - destruct (ipython l && _); now repeat constructor.
  - apply Forall_forall. intros c Hc. apply in_map_iff in Hc.
    now destruct Hc as (tc & <- & _).
Qed.

Lemma count_success_chunks (sr : StopReason) (tcs : list ToolCall) :
  count_status success (map (success_chunk sr) tcs) = List.length tcs
  /\ count_status failure (map (success_chunk sr) tcs) = 0.
Proof.
  unfold count_status. induction tcs as [|tc tcs [IH1 IH2]]; [now split|].
  cbn [map filter has_status chunk_parse_status success_chunk progress_chunk
       delta parse_status eqb_status List.length].
  now rewrite IH1, IH2.
Qed.

Lemma progress_then_complete_snoc cs c :
  Forall (fun c' => has_event_type progress c' = true) cs ->
  has_event_type complete c = true ->
  progress_then_complete (cs ++ [c]) = true.
Proof.
  intros Hcs Hc. induction Hcs as [|c' cs Hc' _ IH]; [exact Hc|].
  cbn [app progress_then_complete]. rewrite Hc', IH.
  now destruct (cs ++ [c]) eqn:Hnil; [destruct cs|].
Qed.

(** ** The stream of a session *)

Lemma chat_completion_completes
    (self : MetaReferenceInferenceImpl) sem request cs sem' :
  chat_completion self sem request = (cs, StopAsyncIteration, sem') ->
  check_model self request = None
  /\ locked sem = false
  /\ cs = session_chunks self request
  /\ exists sem1, acquire sem = Some sem1 /\ sem' = release sem1.
Proof.
  unfold chat_completion.
  destruct (check_model self request); [discriminate|].
  destruct (locked sem) eqn:Hl; [discriminate|].
  destruct (acquire sem) as [sem1|]; [|discriminate].
  intros [= <- <-]. repeat split. now exists sem1.
Qed.

(** C3. A streaming session that runs to its end yields a start event,
    then progress events, then a complete event: one start, which the
    first [__anext__] yields with no token result pulled yet, and one
    complete, which comes last and carries the stop reason of the
    session. *)
Theorem streaming_start_progress_complete
    (self : MetaReferenceInferenceImpl) sem request cs sem' :
  request_stream request = true ->
  chat_completion self sem request = (cs, StopAsyncIteration, sem') ->
  start_progress_complete cs = true
  /\ count_event_type start cs = 1
  /\ count_event_type complete cs = 1
  /\ (exists sem1,
        chat_completion_anext self sem (Created request)
        = (Yield start_chunk,
           InLoop request initial_locals
             (generator_chat_completion self request),
           sem1))
  /\ last cs start_chunk
     = complete_chunk (resolved_stop_reason (final_locals self request)).
Proof.
  intros Hs H.
  destruct (chat_completion_completes self sem request cs sem' H)
    as (Hm & Hl & -> & sem1 & Ha & _).
  unfold session_chunks, after_loop. rewrite Hs.
  set (sr := resolved_stop_reason (final_locals self request)).
  set (mid := loop_chunks self request
              ++ tool_call_chunks (final_locals self request)).
  assert (Forall (fun c => has_event_type progress c = true) mid) as Hmid.
  { apply Forall_app. split; [|apply tool_call_chunks_progress].
    eapply Forall_impl; [|apply run_loop_chunks]. now intros c (Hc & _). }
  replace ([start_chunk]
           ++ loop_chunks self request
           ++ tool_call_chunks (final_locals self request)
           ++ [complete_chunk sr])
    with (start_chunk :: mid ++ [complete_chunk sr])
    by (unfold mid; now rewrite <- app_assoc).
  repeat split.
  - cbn [start_progress_complete]. now apply progress_then_complete_snoc.
  - change (start_chunk :: mid ++ [complete_chunk sr])
      with ([start_chunk] ++ mid ++ [complete_chunk sr]).
    rewrite !count_event_type_app, (count_event_type_none start mid);
      [reflexivity|].
    eapply Forall_impl; [|exact Hmid].
    intros [ev|] Hc; [|discriminate]. cbn in *. now destruct (event_type ev).
  - change (start_chunk :: mid ++ [complete_chunk sr])
      with ([start_chunk] ++ mid ++ [complete_chunk sr]).
    rewrite !count_event_type_app, (count_event_type_none complete mid);
      [reflexivity|].
    eapply Forall_impl; [|exact Hmid].
    intros [ev|] Hc; [|discriminate]. cbn in *. now destruct (event_type ev).
  - exists sem1. cbn [chat_completion_anext]. now rewrite Hm, Hl, Ha, Hs.
  - change (start_chunk :: mid ++ [complete_chunk sr])
      with ((start_chunk :: mid) ++ [complete_chunk sr]).
    apply last_last.
Qed.

(** In every streaming session there is one success event for each tool
    call of the decoded message, and one failure event exactly when the
    session entered tool-call mode and the message has no tool call. *)
Lemma streaming_tool_call_counts (self : MetaReferenceInferenceImpl) request :
  request_stream request = true ->
  count_status success (session_chunks self request)
  = List.length (tool_calls (final_message (final_locals self request)))
  /\ count_status failure (session_chunks self request)
     = (if ipython (final_locals self request)
           && Nat.eqb
                (List.length
                   (tool_calls (final_message (final_locals self request))))
                0
        then 1 else 0).
Proof.
  intros Hs. unfold session_chunks, after_loop, tool_call_chunks.
  rewrite Hs. rewrite !count_status_app.
  set (l := final_locals self request).
  destruct (count_success_chunks (resolved_stop_reason l)
              (tool_calls (final_message l))) as (-> & ->).
  rewrite (count_status_none success (loop_chunks self request)),
          (count_status_none failure (loop_chunks self request)).
  2,3: eapply Forall_impl; [|apply run_loop_chunks]; now intros c (_ & ? & ?).
  destruct (tool_calls (final_message l)) as [|tc tcs];
    cbn [List.length Nat.ltb Nat.leb Nat.eqb negb]; rewrite ?andb_true_r,
      ?andb_false_r; [destruct (ipython l)|]; cbn; lia.
Qed.

(** C5. In a streaming session that entered tool-call mode, the chunks
    before the final complete event hold one failure event and no success
    event when the decoded message has no tool call, and otherwise one
    success event for each of its tool calls and no failure event. *)
Theorem tool_call_outcome_events
    (self : MetaReferenceInferenceImpl) request :
  request_stream request = true ->
  ipython (final_locals self request) = true ->
  exists before,
    session_chunks self request
    = before
      ++ [complete_chunk (resolved_stop_reason (final_locals self request))]
    /\ count_status failure before
       = (if Nat.eqb
               (List.length
                  (tool_calls (final_message (final_locals self request))))
               0
          then 1 else 0)
    /\ count_status success before
       = List.length (tool_calls (final_message (final_locals self request))).
Proof.
  intros Hs Hi.
  destruct (streaming_tool_call_counts self request Hs) as (Hsucc & Hfail).
  rewrite Hi in Hfail. cbn [andb] in Hfail.
  exists ([start_chunk] ++ loop_chunks self request
          ++ tool_call_chunks (final_locals self request)).
  assert (session_chunks self request
          = ([start_chunk] ++ loop_chunks self request
             ++ tool_call_chunks (final_locals self request))
            ++ [complete_chunk
                  (resolved_stop_reason (final_locals self request))])
    as Heq.
  { unfold session_chunks, after_loop. rewrite Hs.
    now rewrite <- !app_assoc. }
  split; [exact Heq|].
  rewrite Heq, count_status_app in Hsucc, Hfail.
  cbn [count_status filter has_status chunk_parse_status complete_chunk
       delta List.length] in Hsucc, Hfail.
  rewrite Nat.add_0_r in Hsucc, Hfail. now split.
Qed.

(** C10. The success events do not depend on tool-call mode: a streaming
    session that never entered it still ends with one success event for
    each tool call of the decoded message, then the complete event, and
    has no failure event. *)
Theorem success_events_without_tool_call_mode
    (self : MetaReferenceInferenceImpl) request :
  request_stream request = true ->
  ipython (final_locals self request) = false ->
  after_loop request (final_locals self request)
  = map (success_chunk (resolved_stop_reason (final_locals self request)))
        (tool_calls (final_message (final_locals self request)))
    ++ [complete_chunk (resolved_stop_reason (final_locals self request))]
  /\ count_status success (session_chunks self request)
     = List.length (tool_calls (final_message (final_locals self request)))
  /\ count_status failure (session_chunks self request) = 0.
Proof.
  intros Hs Hi.
  destruct (streaming_tool_call_counts self request Hs) as (Hsucc & Hfail).
  rewrite Hi in Hfail. repeat split; [|exact Hsucc|exact Hfail].
  unfold after_loop, tool_call_chunks. now rewrite Hs, Hi.
Qed.

(** C7, as the code has it.  In a streaming session the iteration that
    enters tool-call mode yields one progress event, a tool-call delta with
    status [started] and empty content.  What the cut leaves stays in the
    buffer.  The next iteration shows its own fragment as [in_progress]
    tool-call content, unless that fragment is an end marker or a stop
    reason is already set, in which case it yields nothing. *)
Theorem tool_call_entry_events request pre t t' :
  request_stream request = true ->
  enters_tool_call (locals_after request pre) t = true ->
  snd (loop_body request (locals_after request pre) t) = [started_chunk]
  /\ chunk_parse_status (@started_chunk E) = Some started
  /\ chunk_text (@started_chunk E) = Some ""
  /\ buffer (locals_after request (pre ++ [t]))
     = slice_from (String.length python_tag)
         (String.append (buffer (locals_after request pre)) (text t))
  /\ snd (loop_body request (locals_after request (pre ++ [t])) t')
     = (if is_marker (text t') then []
        else match stop_reason (locals_after request pre) with
             | Some _ => []
             | None =>
                 [progress_chunk
                    (DeltaToolCall {| content := ContentStr (text t');
                                      parse_status := in_progress |})
                    None]
             end).
Proof.
  intros Hs Hent. rewrite locals_after_snoc.
  set (l := locals_after request pre) in *.
  destruct (loop_body_enters request l t Hent) as (Hout & Hsr).
  repeat split; [exact Hout | |].
  - now rewrite loop_body_buffer, Hent.
  - set (l1 := fst (loop_body request l t)) in *.
    assert (ipython l1 = true) as Hi
      by (unfold l1; now rewrite loop_body_ipython, Hent, orb_true_r).
    pose proof (enters_tool_call_in_tool_call l1 t' Hi) as Hno.
    destruct (loop_body_streaming request l1 t' Hs Hno) as (_ & ->).
    rewrite Hi, Hsr. destruct (is_marker (text t')) eqn:Hm.
    + now rewrite (classify_marker _ _ Hm).
    + now rewrite (classify_plain _ _ Hm).
Qed.

(** ** The semaphore *)

Lemma acquire_unlocked sem :
  locked sem = false -> acquire sem = Some {| value := value sem - 1 |}.
Proof. intros H. unfold acquire. now rewrite H. Qed.

Lemma yield_pending_cases (pending : list Chunk) :
  (exists c frame,
     yield_pending pending = (Yield c, frame) /\ generating frame = true)
  \/ yield_pending pending = (StopAsyncIteration, Finished).
Proof.
  destruct pending as [|c pending]; [now right | left].
  now exists c, (AfterLoop pending).
Qed.

Lemma resume_loop_cases request l toks :
  (exists c frame,
     resume_loop request l toks = (Yield c, frame)
     /\ generating frame = true)
  \/ resume_loop request l toks = (StopAsyncIteration, Finished).
Proof.
  revert l. induction toks as [|t toks IH]; intros l; cbn [resume_loop].
  - apply yield_pending_cases.
  - destruct (loop_body request l t) as [l1 [|c out]]; [apply IH | left].
    now exists c, (InLoop request l1 toks).
Qed.

(** The generator never waits on the semaphore. *)
Lemma chat_completion_never_blocks
    (self : MetaReferenceInferenceImpl) sem frame :
  fst (fst (chat_completion_anext self sem frame)) <> Blocked.
Proof.
  destruct frame as [request | request l toks | pending |];
    cbn [chat_completion_anext].
  - destruct (check_model self request); [discriminate|].
    destruct (locked sem) eqn:Hl; [discriminate|].
    rewrite (acquire_unlocked sem Hl).
    destruct (request_stream request); [discriminate|].
    destruct (resume_loop_cases request initial_locals
                (generator_chat_completion self request))
      as [(c & f & -> & _) | ->]; discriminate.
  - destruct (resume_loop_cases request l toks) as [(c & f & -> & _) | ->];
      discriminate.
  - destruct (yield_pending_cases pending) as [(c & f & -> & _) | ->];
      discriminate.
  - discriminate.
Qed.

(** With one session at a time on a semaphore of one permit, the permit is
    taken exactly while the generator is suspended inside [async with]. *)
Lemma anext_permit (self : MetaReferenceInferenceImpl) sem frame :
  value sem = (if generating frame then 0 else 1) ->
  value (snd (chat_completion_anext self sem frame))
  = (if generating (snd (fst (chat_completion_anext self sem frame)))
     then 0 else 1).
Proof.
  intros H.
  assert (forall r : Signal * Frame,
             (exists c frame', r = (Yield c, frame')
                               /\ generating frame' = true)
             \/ r = (StopAsyncIteration, Finished) ->
             forall sem0, value sem0 = 0 ->
             value (snd (async_with_exit sem0 r))
             = (if generating (snd (fst (async_with_exit sem0 r)))
                then 0 else 1)) as Hexit.
  { intros r [(c & f & -> & Hg) | ->] sem0 H0; unfold async_with_exit;
      cbn [fst snd generating release value]; [now rewrite Hg | lia]. }
  destruct frame as [request | request l toks | pending |];
    cbn [chat_completion_anext generating] in *.
  - destruct (check_model self request); [exact H|].
    unfold acquire, locked. rewrite H. cbn [Nat.eqb Nat.sub].
    destruct (request_stream request); [reflexivity|].
    apply Hexit; [apply resume_loop_cases | reflexivity].
  - apply Hexit; [apply resume_loop_cases | exact H].
  - apply Hexit; [apply yield_pending_cases | exact H].
  - exact H.
Qed.

Lemma advance_permit (self : MetaReferenceInferenceImpl) n sem frame :
  value sem = (if generating frame then 0 else 1) ->
  value (snd (advance self n sem frame))
  = (if generating (fst (advance self n sem frame)) then 0 else 1).
Proof.
  revert sem frame. induction n as [|n IH]; intros sem frame H;
    [exact H|].
  cbn [advance]. pose proof (anext_permit self sem frame H) as H1.
  destruct (chat_completion_anext self sem frame) as [[sig frame1] sem1].
  now apply IH.
Qed.

(** A request for the loaded model that arrives while the permit is taken
    is refused at once, and the semaphore is left as it was. *)
Lemma refused_when_locked (self : MetaReferenceInferenceImpl) sem request :
  locked sem = true ->
  check_model self request = None ->
  chat_completion_anext self sem (Created request)
  = (Raise only_one_request, Finished, sem)
  /\ chat_completion self sem request = ([], Raise only_one_request, sem)
  /\ forall fuel,
       drain self (S fuel) sem (Created request)
       = ([], Some (Raise only_one_request), sem).
Proof.
  intros Hl Hm.
  assert (chat_completion_anext self sem (Created request)
          = (Raise only_one_request, Finished, sem)) as Hnext
    by (cbn [chat_completion_anext]; now rewrite Hm, Hl).
  repeat split.
  - exact Hnext.
  - unfold chat_completion. now rewrite Hm, Hl.
  - intros fuel. cbn [drain]. now rewrite Hnext.
Qed.

(** C4, as the code has it.  While a first session is suspended inside
    the loop or after it, the permit is taken; a second request that names
    the loaded model is then refused by its first [__anext__] with the
    error "Only one concurrent request is supported", it yields no chunk,
    it does not wait, and it leaves the semaphore as it was. *)
Theorem second_session_refused
    (self : MetaReferenceInferenceImpl) request1 n request2 :
  generating (fst (advance self n SEMAPHORE (Created request1))) = true ->
  check_model self request2 = None ->
  locked (snd (advance self n SEMAPHORE (Created request1))) = true
  /\ chat_completion_anext self
       (snd (advance self n SEMAPHORE (Created request1)))
       (Created request2)
     = (Raise only_one_request, Finished,
        snd (advance self n SEMAPHORE (Created request1)))
  /\ chat_completion self
       (snd (advance self n SEMAPHORE (Created request1))) request2
     = ([], Raise only_one_request,
        snd (advance self n SEMAPHORE (Created request1)))
  /\ forall fuel,
       drain self (S fuel)
         (snd (advance self n SEMAPHORE (Created request1)))
         (Created request2)
       = ([], Some (Raise only_one_request),
          snd (advance self n SEMAPHORE (Created request1))).
Proof.
  intros Hg Hm.
  pose proof (advance_permit self n SEMAPHORE (Created request1) eq_refl)
    as Hv.
  rewrite Hg in Hv.
  assert (locked (snd (advance self n SEMAPHORE (Created request1))) = true)
    as Hl by (unfold locked; now rewrite Hv).
  split; [exact Hl|]. now apply refused_when_locked.
Qed.

Lemma model_errors_differ (self : MetaReferenceInferenceImpl) request :
  unknown_model request <> only_one_request
  /\ model_mismatch self request <> only_one_request.
Proof. split; intros H; discriminate H. Qed.

(** C9. A request whose model the registry does not know, or whose model
    is not the loaded one, fails on its first [__anext__] with the error
    for that case.  The error is the same whatever the state of the
    semaphore, taken or free, and the semaphore is left as it was; no chunk
    is yielded. *)
Theorem model_error_before_gate
    (self : MetaReferenceInferenceImpl) request :
  resolve_model (request_model request) = None
  \/ (exists model,
        resolve_model (request_model request) = Some model
        /\ descriptor model <> descriptor (self_model self)) ->
  exists e,
    (e = unknown_model request \/ e = model_mismatch self request)
    /\ e <> only_one_request
    /\ forall sem,
         chat_completion_anext self sem (Created request)
         = (Raise e, Finished, sem)
         /\ chat_completion self sem request = ([], Raise e, sem)
         /\ forall fuel,
              drain self (S fuel) sem (Created request)
              = ([], Some (Raise e), sem).
Proof.
  intros H.
  assert (exists e,
             (e = unknown_model request \/ e = model_mismatch self request)
             /\ check_model self request = Some e) as (e & He & Hm).
  { unfold check_model. destruct H as [-> | (model & -> & Hd)].
    - exists (unknown_model request). now split; [left|].
    - exists (model_mismatch self request). split; [now right|].
      apply String.eqb_neq in Hd. now rewrite Hd. }
  exists e. split; [exact He|]. split.
  { destruct (model_errors_differ self request) as (H1 & H2).
    now destruct He as [-> | ->]. }
  intros sem.
  assert (chat_completion_anext self sem (Created request)
          = (Raise e, Finished, sem)) as Hnext
    by (cbn [chat_completion_anext]; now rewrite Hm).
  repeat split.
  - exact Hnext.
  - unfold chat_completion. now rewrite Hm.
  - intros fuel. cbn [drain]. now rewrite Hnext.
Qed.

(** ** The two views of the generator agree *)

Lemma loop_body_at_most_one request l t :
  snd (loop_body request l t) = []
  \/ exists c, snd (loop_body request l t) = [c].
Proof.
  destruct (enters_tool_call l t) eqn:Hent.
  - destruct (loop_body_enters request l t Hent) as (-> & _). eauto.
  - destruct (request_stream request) eqn:Hs.
    + destruct (loop_body_streaming request l t Hs Hent) as (_ & ->).
      destruct (fst (classify (stop_reason l) (text t))); eauto.
    + destruct (loop_body_not_streaming request l t Hs Hent) as (-> & _).
      eauto.
Qed.

Lemma drain_after_loop
    (self : MetaReferenceInferenceImpl) fuel sem (pending : list Chunk) :
  List.length pending < fuel ->
  drain self fuel sem (AfterLoop pending)
  = (pending, Some StopAsyncIteration, release sem).
Proof.
  revert fuel. induction pending as [|c pending IH]; intros fuel H;
    (destruct fuel as [|fuel]; [cbn in H; lia|]).
  - reflexivity.
  - cbn [drain chat_completion_anext yield_pending async_with_exit fst].
    rewrite IH; [reflexivity | cbn in H; lia].
Qed.

Lemma drain_in_loop
    (self : MetaReferenceInferenceImpl) request toks fuel sem l :
  List.length (snd (run_loop request l toks)
               ++ after_loop request (fst (run_loop request l toks)))
  < fuel ->
  drain self fuel sem (InLoop request l toks)
  = (snd (run_loop request l toks)
     ++ after_loop request (fst (run_loop request l toks)),
     Some StopAsyncIteration, release sem).
Proof.
  revert fuel l. induction toks as [|t toks IH]; intros fuel l H.
  - destruct fuel as [|fuel]; [cbn in H; lia|].
    cbn [run_loop fst snd app] in *.
    cbn [drain chat_completion_anext resume_loop].
    destruct (after_loop request l) as [|c pending]; [reflexivity|].
    cbn [yield_pending async_with_exit fst].
    rewrite drain_after_loop; [reflexivity | cbn in H; lia].
  - rewrite run_loop_cons in *. cbn [fst snd] in *.
    destruct (loop_body_at_most_one request l t) as [Hout | (c & Hout)];
      rewrite Hout in *.
    + cbn [app] in *. rewrite <- (IH fuel _ H).
      destruct fuel as [|fuel]; [reflexivity|].
      cbn [drain chat_completion_anext resume_loop].
      destruct (loop_body request l t) as [l1 out].
      cbn [fst snd] in *. now subst out.
    + destruct fuel as [|fuel]; [cbn in H; lia|].
      cbn [drain chat_completion_anext resume_loop].
      specialize (IH fuel (fst (loop_body request l t))).
      destruct (loop_body request l t) as [l1 out].
      cbn [fst snd] in *. subst out.
      cbn [async_with_exit fst app] in *.
      rewrite IH; [reflexivity | cbn in H; lia].
Qed.

(** Calling [__anext__] until the generator stops gives what
    [chat_completion] gives: the same chunks in the same order, the same
    way of ending, the same semaphore afterwards.  Fuel for one call more
    than there are chunks is enough. *)
Theorem drain_chat_completion
    (self : MetaReferenceInferenceImpl) fuel sem request :
  List.length (session_chunks self request) < fuel ->
  drain self fuel sem (Created request)
  = (fst (fst (chat_completion self sem request)),
     Some (snd (fst (chat_completion self sem request))),
     snd (chat_completion self sem request)).
Proof.
  intros H. destruct fuel as [|fuel]; [lia|].
  unfold chat_completion. cbn [drain chat_completion_anext].
  destruct (check_model self request); [reflexivity|].
  destruct (locked sem) eqn:Hl; [reflexivity|].
  rewrite (acquire_unlocked sem Hl). cbn [fst snd].
  unfold session_chunks, loop_chunks, final_locals in *.
  set (toks := generator_chat_completion self request) in *.
  destruct (request_stream request) eqn:Hs.
  - cbn [app List.length] in *.
    rewrite drain_in_loop; [reflexivity | lia].
  - cbn [app] in *.
    change (match
               async_with_exit {| value := value sem - 1 |}
                 (resume_loop request initial_locals toks)
             with
             | (Yield c, frame1, sem1) =>
                 let '(cs, sig, sem2) := drain self fuel sem1 frame1 in
                 (c :: cs, sig, sem2)
             | (sig, _, sem1) => ([], Some sig, sem1)
             end)
      with (drain self (S fuel) {| value := value sem - 1 |}
              (InLoop request initial_locals toks)).
    rewrite drain_in_loop; [reflexivity | lia].
Qed.

(** The generator of a request that passes the checks and finds the
    semaphore free runs to its end and gives the permit back. *)
Lemma chat_completion_admitted
    (self : MetaReferenceInferenceImpl) request :
  check_model self request = None ->
  chat_completion self SEMAPHORE request
  = (session_chunks self request, StopAsyncIteration, SEMAPHORE).
Proof. intros H. unfold chat_completion. now rewrite H. Qed.

(** ** Sessions that do not stream *)

(** Without streaming the loop never looks at the end markers: the stop
    reason is still unset when the loop is over. *)
Lemma not_streaming_stop_reason request toks :
  request_stream request = false ->
  stop_reason (locals_after request toks) = None.
Proof.
  intros Hs. induction toks as [|t toks IH] using rev_ind; [reflexivity|].
  rewrite locals_after_snoc.
  destruct (enters_tool_call (locals_after request toks) t) eqn:Hent.
  - destruct (loop_body_enters request _ t Hent) as (_ & ->). exact IH.
  - destruct (loop_body_not_streaming request _ t Hs Hent) as (_ & -> & _).
    exact IH.
Qed.

(** Without streaming the loop still yields the [started] chunk when it
    enters tool-call mode, and nothing else. *)
Lemma not_streaming_loop_chunks request l toks :
  request_stream request = false ->
  snd (run_loop request l toks)
  = repeat started_chunk (entries request l toks).
Proof.
  intros Hs. revert l. induction toks as [|t toks IH]; intros l;
    [reflexivity|].
  rewrite run_loop_cons. cbn [snd entries]. rewrite IH.
  destruct (enters_tool_call l t) eqn:Hent.
  - now destruct (loop_body_enters request l t Hent) as (-> & _).
  - now destruct (loop_body_not_streaming request l t Hs Hent) as (-> & _).
Qed.

(** The result of a session that does not stream: the decoded message,
    with the log-probabilities exactly when the request asked for them. *)
Lemma not_streaming_response (self : MetaReferenceInferenceImpl) request :
  request_stream request = false ->
  session_chunks self request
  = (if ipython (final_locals self request) then [started_chunk] else [])
    ++ [ChatCompletionResponse (final_message (final_locals self request))
          (if request_logprobs request
           then Some (logprobs (final_locals self request))
           else None)].
Proof.
  intros Hs. unfold session_chunks, after_loop, loop_chunks. rewrite Hs.
  cbn [app]. rewrite (not_streaming_loop_chunks _ _ _ Hs).
  destruct (run_loop_detects request initial_locals
              (generator_chat_completion self request) eq_refl)
    as (_ & -> & _).
  unfold final_locals.
  now destruct (ipython (fst (run_loop request initial_locals _))).
Qed.

(** ** Stop reasons of a streaming session *)

(** A fragment that is an end marker sets the stop reason to match. *)
Lemma streaming_marker_sets_stop_reason request toks t :
  request_stream request = true ->
  is_marker (text t) = true ->
  stop_reason (locals_after request (toks ++ [t]))
  = Some (if String.eqb (text t) eot_id then end_of_turn
          else end_of_message).
Proof.
  intros Hs Hm. rewrite locals_after_snoc.
  set (l := locals_after request toks).
  assert (enters_tool_call l t = false) as Hent.
  { destruct (ipython l) eqn:Hl;
      [now apply enters_tool_call_in_tool_call|].
    rewrite (enters_tool_call_text l t Hl).
    destruct (streaming_locals request toks Hs) as [Hi | (Hb & _)];
      fold l in Hi || fold l in Hb; [congruence|].
    rewrite <- (append_empty_r (text t)).
    now apply no_tag_after_marker. }
  destruct (loop_body_streaming request l t Hs Hent) as (-> & _).
  now rewrite (classify_marker _ _ Hm).
Qed.

(** With no end marker among the fragments the stop reason of the session
    is [out_of_tokens], streaming or not. *)
Lemma no_marker_out_of_tokens request toks :
  forallb (fun t => negb (is_marker (text t))) toks = true ->
  resolved_stop_reason (locals_after request toks) = out_of_tokens.
Proof.
  intros H. unfold resolved_stop_reason.
  enough (stop_reason (locals_after request toks) = None) as -> by easy.
  induction toks as [|t toks IH] using rev_ind; [reflexivity|].
  rewrite forallb_app in H. apply andb_true_iff in H.
  destruct H as (H & Ht). cbn in Ht. rewrite andb_true_r in Ht.
  apply negb_true_iff in Ht. rewrite locals_after_snoc.
  destruct (enters_tool_call (locals_after request toks) t) eqn:Hent.
  - destruct (loop_body_enters request _ t Hent) as (_ & ->). now apply IH.
  - destruct (request_stream request) eqn:Hs.
    + destruct (loop_body_streaming request _ t Hs Hent) as (-> & _).
      rewrite (classify_plain _ _ Ht). now apply IH.
    + destruct (loop_body_not_streaming request _ t Hs Hent)
        as (_ & -> & _).
      now apply IH.
Qed.

End Properties.

(** * The sample sessions *)

(** ** The examples of the specification *)

Example tool_call_session :
  chat_completion (sample_impl tool_call_tokens) SEMAPHORE
    (sample_request true false)
  = ([start_chunk;
      started_chunk;
      progress_chunk
        (DeltaToolCall {| content := ContentStr "foo(";
                          parse_status := in_progress |}) None;
      progress_chunk
        (DeltaToolCall {| content := ContentStr "1)";
                          parse_status := in_progress |}) None;
      @success_chunk sample_models end_of_turn "get_weather";
      complete_chunk end_of_turn],
     StopAsyncIteration, SEMAPHORE).
Proof. reflexivity. Qed.

Example hello_world_session :
  chat_completion (sample_impl hello_world) SEMAPHORE
    (sample_request true false)
  = ([start_chunk;
      progress_chunk (DeltaStr "Hello") None;
      progress_chunk (DeltaStr " world") None;
      complete_chunk out_of_tokens],
     StopAsyncIteration, SEMAPHORE).
Proof. reflexivity. Qed.

(** A tag split over two fragments is found, though no fragment starts
    with it. *)
Example split_tag_detected :
  forallb (fun t => negb (startswith (text t) python_tag)) split_tag_tokens
  = true
  /\ ipython (locals_after (sample_request true false) split_tag_tokens)
     = true
  /\ buffer (locals_after (sample_request true false) split_tag_tokens)
     = "f()".
Proof. repeat split. Qed.

(** ** C1: the end marker of a session that does not stream *)

(** C1.  The session generates "Hello" and then the end-of-turn marker.
    Without streaming the iteration is over at line 128, before the marker
    is looked at: the stop reason falls back to [out_of_tokens], and the
    message is decoded with it.  The same tokens with streaming give
    [end_of_turn]. *)
Theorem not_streaming_end_of_turn_lost :
  chat_completion (sample_impl hello_eot) SEMAPHORE
    (sample_request false false)
  = ([@ChatCompletionResponse sample_models (out_of_tokens, []) None],
     StopAsyncIteration, SEMAPHORE)
  /\ resolved_stop_reason
       (final_locals (sample_impl hello_eot) (sample_request false false))
     = out_of_tokens
  /\ resolved_stop_reason
       (final_locals (sample_impl hello_eot) (sample_request true false))
     = end_of_turn.
Proof. repeat split. Qed.

(** ** C2: the chunks of a session that does not stream *)

(** C2.  The session enters tool-call mode and does not stream.  Line 112
    yields the [started] stream chunk all the same, before the response;
    the response has the log-probabilities that were asked for. *)
Theorem not_streaming_started_chunk :
  chat_completion (sample_impl tool_call_tokens) SEMAPHORE
    (sample_request false true)
  = ([started_chunk;
      @ChatCompletionResponse sample_models
        (out_of_tokens, ["get_weather"]) (Some [7; 4; 2])],
     StopAsyncIteration, SEMAPHORE)
  /\ count_event_type progress
       (session_chunks (sample_impl tool_call_tokens)
          (sample_request false true))
     = 1.
Proof. repeat split. Qed.

(** ** Instances of the theorems *)

Lemma streaming_start_progress_complete_witness :
  request_stream (sample_request true false) = true
  /\ chat_completion (sample_impl tool_call_tokens) SEMAPHORE
       (sample_request true false)
     = (session_chunks (sample_impl tool_call_tokens)
          (sample_request true false),
        StopAsyncIteration, SEMAPHORE)
  /\ start_progress_complete
       (session_chunks (sample_impl tool_call_tokens)
          (sample_request true false)) = true
  /\ count_event_type start
       (session_chunks (sample_impl tool_call_tokens)
          (sample_request true false)) = 1
  /\ count_event_type complete
       (session_chunks (sample_impl tool_call_tokens)
          (sample_request true false)) = 1.
Proof.
  split; [reflexivity|]. split; [reflexivity|].
  destruct (streaming_start_progress_complete
              (sample_impl tool_call_tokens) SEMAPHORE
              (sample_request true false)
              (session_chunks (sample_impl tool_call_tokens)
                 (sample_request true false))
              SEMAPHORE eq_refl eq_refl) as (H1 & H2 & H3 & _).
  exact (conj H1 (conj H2 H3)).
Defined.

Lemma tool_call_outcome_events_witness :
  request_stream (sample_request true false) = true
  /\ ipython (final_locals (sample_impl failed_tool_call_tokens)
                (sample_request true false)) = true
  /\ exists before,
       session_chunks (sample_impl failed_tool_call_tokens)
         (sample_request true false)
       = before ++ [complete_chunk end_of_turn]
       /\ count_status failure before = 1
       /\ count_status success before = 0.
Proof.
  split; [reflexivity|]. split; [reflexivity|].
  exact (tool_call_outcome_events (sample_impl failed_tool_call_tokens)
           (sample_request true false) eq_refl eq_refl).
Defined.

Lemma success_events_without_tool_call_mode_witness :
  request_stream (sample_request true false) = true
  /\ ipython (final_locals (sample_impl untagged_tool_call_tokens)
                (sample_request true false)) = false
  /\ count_status success
       (session_chunks (sample_impl untagged_tool_call_tokens)
          (sample_request true false)) = 2
  /\ count_status failure
       (session_chunks (sample_impl untagged_tool_call_tokens)
          (sample_request true false)) = 0.
Proof.
  split; [reflexivity|]. split; [reflexivity|].
  exact (proj2 (success_events_without_tool_call_mode
                  (sample_impl untagged_tool_call_tokens)
                  (sample_request true false) eq_refl eq_refl)).
Defined.

Lemma tool_call_entry_events_witness :
  request_stream (sample_request true false) = true
  /\ enters_tool_call (locals_after (sample_request true false) [])
       (sample_token 3 "<|python_tag|>foo") = true
  /\ snd (loop_body (sample_request true false)
            (locals_after (sample_request true false) [])
            (sample_token 3 "<|python_tag|>foo"))
     = [started_chunk]
  /\ buffer (locals_after (sample_request true false)
               [sample_token 3 "<|python_tag|>foo"])
     = "foo"
  /\ snd (loop_body (sample_request true false)
            (locals_after (sample_request true false)
               [sample_token 3 "<|python_tag|>foo"])
            (sample_token 4 "bar"))
     = [progress_chunk
          (DeltaToolCall {| content := ContentStr "bar";
                            parse_status := in_progress |}) None].
Proof.
  split; [reflexivity|]. split; [reflexivity|].
  destruct (tool_call_entry_events (sample_request true false) []
              (sample_token 3 "<|python_tag|>foo") (sample_token 4 "bar")
              eq_refl eq_refl) as (H1 & _ & _ & H2 & H3).
  exact (conj H1 (conj H2 H3)).
Defined.

Lemma no_progress_once_stopped_witness :
  request_stream (sample_request true false) = true
  /\ generator_chat_completion (sample_impl after_marker_tokens)
       (sample_request true false)
     = [sample_token 1 "Hello"]
       ++ sample_token 2 "<|eot_id|>" :: [sample_token 5 "more"]
  /\ is_marker (text (sample_token 2 "<|eot_id|>")) = true
  /\ loop_chunks (sample_impl after_marker_tokens)
       (sample_request true false)
     = [progress_chunk (DeltaStr "Hello") None]
  /\ tokens (final_locals (sample_impl after_marker_tokens)
               (sample_request true false))
     = [1%Z; 2%Z; 5%Z].
Proof.
  split; [reflexivity|]. split; [reflexivity|]. split; [reflexivity|].
  exact (proj2 (no_progress_once_stopped (sample_impl after_marker_tokens)
                  (sample_request true false)
                  [sample_token 1 "Hello"] (sample_token 2 "<|eot_id|>")
                  [sample_token 5 "more"]
                  eq_refl eq_refl (or_intror eq_refl))).
Defined.

Lemma second_session_refused_witness :
  generating
    (fst (advance (sample_impl hello_world) 1 SEMAPHORE
            (Created (sample_request true false)))) = true
  /\ check_model (sample_impl hello_world) (sample_request false false)
     = None
  /\ chat_completion (sample_impl hello_world)
       (snd (advance (sample_impl hello_world) 1 SEMAPHORE
               (Created (sample_request true false))))
       (sample_request false false)
     = ([], Raise only_one_request, {| value := 0 |}).
Proof.
  split; [reflexivity|]. split; [reflexivity|].
  exact (proj1 (proj2 (proj2
           (second_session_refused (sample_impl hello_world)
              (sample_request true false) 1 (sample_request false false)
              eq_refl eq_refl)))).
Defined.

Lemma model_error_before_gate_witness :
  @resolve_model sample_models (request_model unknown_request) = None
  /\ exists e,
       (e = unknown_model unknown_request
        \/ e = model_mismatch (sample_impl hello_world) unknown_request)
       /\ e <> only_one_request
       /\ forall sem,
            chat_completion_anext (sample_impl hello_world) sem
              (Created unknown_request)
            = (Raise e, Finished, sem)
            /\ chat_completion (sample_impl hello_world) sem unknown_request
               = ([], Raise e, sem)
            /\ forall fuel,
                 drain (sample_impl hello_world) (S fuel) sem
                   (Created unknown_request)
                 = ([], Some (Raise e), sem).
Proof.
  split; [reflexivity|].
  exact (model_error_before_gate (sample_impl hello_world) unknown_request
           (or_introl eq_refl)).
Defined.

(** A request for the other model of the registry fails the same way. *)
Example mismatched_model_session :
  forall sem,
    chat_completion (sample_impl hello_world) sem mismatched_request
    = ([],
       Raise
         (RuntimeError
            "Model mismatch: Meta-Llama3.1-70B-Instruct != Meta-Llama3.1-8B-Instruct"),
       sem).
Proof. reflexivity. Qed.

(** ** Where the code departs from C4 and C7 *)

(** C4.  A first session is suspended after its start event and holds the
    permit.  A second request names a model the registry does not know:
    it fails at line 72, with the error for the unknown model, not with
    the error of line 81. *)
Lemma second_session_unknown_model :
  generating
    (fst (advance (sample_impl hello_world) 1 SEMAPHORE
            (Created (sample_request true false)))) = true
  /\ locked
       (snd (advance (sample_impl hello_world) 1 SEMAPHORE
               (Created (sample_request true false)))) = true
  /\ chat_completion_anext (sample_impl hello_world)
       (snd (advance (sample_impl hello_world) 1 SEMAPHORE
               (Created (sample_request true false))))
       (Created unknown_request)
     = (Raise
          (RuntimeError
             "Unknown model: no-such-model, Run `llama model list`"),
        Finished, {| value := 0 |})
  /\ ~ every_second_session_busy (sample_impl hello_world).
Proof.
  repeat split. intros H.
  specialize (H (sample_request true false) 1 unknown_request eq_refl).
  discriminate H.
Qed.

(** C7.  The fragment that enters tool-call mode carries "foo" after the
    tag.  The cut leaves "foo" in the buffer, the next iteration shows its
    own fragment "bar", and no chunk of the session shows "foo". *)
Lemma remainder_not_shown :
  chat_completion (sample_impl tag_with_tail_tokens) SEMAPHORE
    (sample_request true false)
  = ([start_chunk;
      started_chunk;
      progress_chunk
        (DeltaToolCall {| content := ContentStr "bar";
                          parse_status := in_progress |}) None;
      failure_chunk out_of_tokens;
      complete_chunk out_of_tokens],
     StopAsyncIteration, SEMAPHORE)
  /\ buffer (locals_after (sample_request true false)
               [sample_token 3 "<|python_tag|>foo"])
     = "foo"
  /\ ~ remainder_is_next_content (sample_request true false)
         tag_with_tail_tokens.
Proof.
  repeat split. intros H.
  destruct (H [] (sample_token 3 "<|python_tag|>foo")
              (sample_token 4 "bar") [] eq_refl eq_refl)
    as (d & sr & H1 & H2).
  injection H1 as <- <-. discriminate H2.
Qed.

(** * More on the sessions of the inference provider *)

Section SessionProperties.

Context {E : LlamaModels}.

Implicit Types (self : MetaReferenceInferenceImpl).
Implicit Types (request : ChatCompletionRequest) (l : Locals).
Implicit Types (t : TokenResult) (toks : list TokenResult).
Implicit Types (frame : Frame) (frames : list Frame) (sem : Semaphore).

(** ** The permit *)

Lemma release_acquired sem :
  locked sem = false -> release {| value := value sem - 1 |} = sem.
Proof.
  destruct sem as [v]. unfold locked, release. cbn [value]. intros H.
  apply Nat.eqb_neq in H. f_equal. lia.
Qed.

Lemma chat_completion_permit self sem request :
  snd (chat_completion self sem request) = sem.
Proof.
  unfold chat_completion.
  destruct (check_model self request); [reflexivity|].
  destruct (locked sem) eqn:Hl; [reflexivity|].
  rewrite (acquire_unlocked sem Hl). cbn [snd].
  now apply release_acquired.
Qed.

(** X1. However a session ends, with a model error, refused because the
    permit is taken, or after its last chunk, the semaphore is afterwards
    as the session found it. *)
Theorem permit_returned self fuel sem request :
  List.length (session_chunks self request) < fuel ->
  snd (drain self fuel sem (Created request)) = sem
  /\ snd (fst (drain self fuel sem (Created request))) <> None
  /\ snd (fst (drain self fuel sem (Created request))) <> Some Blocked.
Proof.
  intros H. rewrite (drain_chat_completion self fuel sem request H).
  cbn [fst snd]. split; [apply chat_completion_permit|].
  split; [discriminate|].
  unfold chat_completion.
  destruct (check_model self request); [discriminate|].
  destruct (locked sem) eqn:Hl; [discriminate|].
  rewrite (acquire_unlocked sem Hl). discriminate.
Qed.

(** A generator that does not hold the permit and finds it taken does not
    get it. *)
Lemma anext_locked_out self sem frame :
  generating frame = false ->
  value sem = 0 ->
  generating (snd (fst (chat_completion_anext self sem frame))) = false
  /\ snd (chat_completion_anext self sem frame) = sem.
Proof.
  intros Hg Hv.
  destruct frame as [request | request l toks | pending |];
    try discriminate; cbn [chat_completion_anext].
  - destruct (check_model self request); [now split|].
    unfold locked. rewrite Hv. now split.
  - now split.
Qed.

Lemma anext_generating_balance self sem frame :
  value sem <= 1 ->
  (generating frame = true -> value sem = 0) ->
  (if generating (snd (fst (chat_completion_anext self sem frame)))
   then 1 else 0)
  + value (snd (chat_completion_anext self sem frame))
  = (if generating frame then 1 else 0) + value sem.
Proof.
  intros Hle Hheld.
  destruct (generating frame) eqn:Hg.
  - rewrite (anext_permit self sem frame); rewrite ?Hg, ?(Hheld eq_refl);
      [|reflexivity].
    destruct (generating (snd (fst (chat_completion_anext self sem frame))));
      reflexivity.
  - destruct (value sem) as [|[|v]] eqn:Hv; [| |lia].
    + destruct (anext_locked_out self sem frame Hg Hv) as (-> & ->).
      now rewrite Hv.
    + rewrite (anext_permit self sem frame); rewrite ?Hg, ?Hv;
        [|reflexivity].
      destruct (generating (snd (fst (chat_completion_anext self sem frame))));
      reflexivity.
Qed.

Lemma anext_at_balance self i sem frames :
  value sem <= 1 ->
  (0 < count_generating frames -> value sem = 0) ->
  count_generating (fst (anext_at self i sem frames))
  + value (snd (anext_at self i sem frames))
  = count_generating frames + value sem.
Proof.
  revert i. induction frames as [|frame frames IH]; intros i Hle Hheld;
    [now destruct i|].
  unfold count_generating in *. cbn [filter] in Hheld.
  destruct i as [|i]; cbn [anext_at].
  - pose proof (anext_generating_balance self sem frame Hle) as Hb.
    destruct (chat_completion_anext self sem frame) as [[sig frame1] sem1].
    cbn [fst snd filter] in *.
    destruct (generating frame) eqn:Hg; cbn [List.length] in *.
    + specialize (Hb (fun _ => Hheld ltac:(lia))).
      destruct (generating frame1); cbn [List.length]; lia.
    + specialize (Hb ltac:(discriminate)).
      destruct (generating frame1); cbn [List.length]; lia.
  - specialize (IH i Hle).
    destruct (anext_at self i sem frames) as [frames1 sem1].
    cbn [fst snd filter] in *.
    destruct (generating frame); cbn [List.length] in *.
    + cbn [Nat.add]. f_equal. apply IH. intros _. apply Hheld. lia.
    + apply IH. exact Hheld.
Qed.

(** X2. Any number of sessions on one provider, their [__anext__] calls
    taken in any order: at every moment at most one generator is suspended
    inside [async with], and the semaphore has its permit exactly when
    none is. *)
Theorem one_session_at_a_time self (requests : list ChatCompletionRequest)
    (schedule : list nat) :
  count_generating
    (fst (event_loop self schedule SEMAPHORE (map Created requests)))
  + value (snd (event_loop self schedule SEMAPHORE (map Created requests)))
  = 1
  /\ count_generating
       (fst (event_loop self schedule SEMAPHORE (map Created requests)))
     <= 1.
Proof.
  assert (forall frames sem,
             count_generating frames + value sem = 1 ->
             count_generating (fst (event_loop self schedule sem frames))
             + value (snd (event_loop self schedule sem frames)) = 1)
    as Hloop.
  { induction schedule as [|i schedule IH]; intros frames sem H;
      [exact H|].
    cbn [event_loop].
    pose proof (anext_at_balance self i sem frames) as Hb.
    destruct (anext_at self i sem frames) as [frames1 sem1].
    cbn [fst snd] in Hb. apply IH. rewrite Hb; [exact H | lia | lia]. }
  assert (count_generating (map Created requests) = 0) as H0.
  { unfold count_generating.
    induction requests as [|r rs IH]; [reflexivity | exact IH]. }
  specialize (Hloop (map Created requests) SEMAPHORE).
  rewrite H0 in Hloop. specialize (Hloop eq_refl). split; [exact Hloop|].
  lia.
Qed.

(** ** The provider and its model *)

(** X3. A provider is built only for a model the registry knows, and it
    takes every request that names the model of its configuration: such a
    request passes the model check, and with the permit free its session
    runs to the end. *)
Theorem provider_accepts_configured_model
    (generator :
       MetaReferenceImplConfig -> ChatCompletionRequest -> list TokenResult)
    (config : MetaReferenceImplConfig) self request :
  get_provider_impl generator config = inr self ->
  request_model request = config_model config ->
  resolve_model (config_model config) = Some (self_model self)
  /\ check_model self request = None
  /\ chat_completion self SEMAPHORE request
     = (session_chunks self request, StopAsyncIteration, SEMAPHORE).
Proof.
  unfold get_provider_impl. intros Hp Hr.
  destruct (resolve_model (config_model config)) as [model|] eqn:Hm;
    [|discriminate].
  injection Hp as <-. cbn [self_model].
  assert (check_model
            {| self_model := model;
               generator_chat_completion := generator config |} request
          = None) as Hc.
  { unfold check_model. rewrite Hr, Hm. cbn [self_model].
    now rewrite String.eqb_refl. }
  repeat split; [exact Hc|].
  now apply chat_completion_admitted.
Qed.

(** ** Sessions that do not stream *)

Lemma loop_body_logprobs request l t :
  logprobs (fst (loop_body request l t))
  = if enters_tool_call l t then logprobs l
    else if negb (request_stream request) && request_logprobs request
         then logprobs l ++ [logprob t]
         else logprobs l.
Proof.
  unfold loop_body. destruct (enters_tool_call l t); [reflexivity|].
  destruct (request_stream request); cbn [negb andb].
  - now destruct (classify (stop_reason l) (text t)).
  - reflexivity.
Qed.

Lemma logprobs_in_tool_call request l toks :
  request_stream request = false ->
  request_logprobs request = true ->
  ipython l = true ->
  logprobs (fst (run_loop request l toks)) = logprobs l ++ map logprob toks.
Proof.
  intros Hs Hp. revert l. induction toks as [|t toks IH]; intros l Hl.
  - cbn. now rewrite app_nil_r.
  - rewrite run_loop_cons. cbn [fst map]. rewrite IH.
    + rewrite loop_body_logprobs, (enters_tool_call_in_tool_call l t Hl),
        Hs, Hp. cbn [negb andb]. now rewrite <- app_assoc.
    + now rewrite loop_body_ipython, Hl.
Qed.

Lemma logprobs_outside_tool_call request l toks :
  request_stream request = false ->
  request_logprobs request = true ->
  ipython l = false ->
  (ipython (fst (run_loop request l toks)) = false
   /\ logprobs (fst (run_loop request l toks))
      = logprobs l ++ map logprob toks)
  \/ (exists pre t post,
        toks = pre ++ t :: post
        /\ enters_tool_call (fst (run_loop request l pre)) t = true
        /\ logprobs (fst (run_loop request l toks))
           = logprobs l ++ map logprob (pre ++ post)).
Proof.
  intros Hs Hp. revert l. induction toks as [|t toks IH]; intros l Hl.
  - left. cbn. now rewrite app_nil_r.
  - rewrite run_loop_cons. cbn [fst].
    destruct (enters_tool_call l t) eqn:Hent.
    + right. exists [], t, toks. repeat split; [exact Hent|].
      rewrite logprobs_in_tool_call; try assumption.
      * now rewrite loop_body_logprobs, Hent.
      * now rewrite loop_body_ipython, Hent, orb_true_r.
    + destruct (IH (fst (loop_body request l t)))
        as [(Hi & Hlp) | (pre & t' & post & -> & Hent' & Hlp)].
      { now rewrite loop_body_ipython, Hent, Hl. }
      * left. split; [exact Hi|]. rewrite Hlp, loop_body_logprobs, Hent, Hs, Hp.
        cbn [negb andb map]. now rewrite <- app_assoc.
      * right. exists (t :: pre), t', post. repeat split.
        -- rewrite run_loop_cons. exact Hent'.
        -- rewrite Hlp, loop_body_logprobs, Hent, Hs, Hp.
           cbn [negb andb map app]. now rewrite <- app_assoc.
Qed.

(** X4. A session that does not stream ends with the one response, whose
    message is decoded from the token ids of all token results, in order,
    always with the stop reason [out_of_tokens], and which has the list of
    log-probabilities exactly when the request asked for them.  The only
    chunk that can come before it is the [started] chunk of a session that
    entered tool-call mode. *)
Theorem not_streaming_session self request :
  request_stream request = false ->
  session_chunks self request
  = (if ipython (final_locals self request) then [started_chunk] else [])
    ++ [ChatCompletionResponse
          (decode_assistant_message
             (map token (generator_chat_completion self request))
             out_of_tokens)
          (if request_logprobs request
           then Some (logprobs (final_locals self request))
           else None)].
Proof.
  intros Hs. rewrite (not_streaming_response self request Hs).
  unfold final_message, resolved_stop_reason.
  unfold final_locals at 2 3.
  fold (locals_after request (generator_chat_completion self request)).
  rewrite (not_streaming_stop_reason request _ Hs).
  unfold locals_after. now rewrite run_loop_tokens.
Qed.

(** X5. In a session that does not stream and asks for log-probabilities,
    the list collected holds the log-probability of every token result, in
    order, except the one whose fragment made the session enter tool-call
    mode. *)
Theorem not_streaming_logprobs request toks :
  request_stream request = false ->
  request_logprobs request = true ->
  (ipython (locals_after request toks) = false
   /\ logprobs (locals_after request toks) = map logprob toks)
  \/ (exists pre t post,
        toks = pre ++ t :: post
        /\ enters_tool_call (locals_after request pre) t = true
        /\ logprobs (locals_after request toks) = map logprob (pre ++ post)).
Proof.
  intros Hs Hp.
  exact (logprobs_outside_tool_call request initial_locals toks Hs Hp
           eq_refl).
Qed.

(** ** Stop reasons *)

Lemma plain_fragments_keep_stop_reason request l toks :
  forallb (fun t => negb (is_marker (text t))) toks = true ->
  stop_reason (fst (run_loop request l toks)) = stop_reason l.
Proof.
  revert l. induction toks as [|t toks IH]; intros l H; [reflexivity|].
  cbn [forallb] in H. apply andb_true_iff in H. destruct H as (Ht & H).
  apply negb_true_iff in Ht.
  rewrite run_loop_cons. cbn [fst]. rewrite (IH _ H).
  destruct (enters_tool_call l t) eqn:Hent.
  - now destruct (loop_body_enters request l t Hent) as (_ & ->).
  - destruct (request_stream request) eqn:Hs.
    + destruct (loop_body_streaming request l t Hs Hent) as (-> & _).
      now rewrite (classify_plain _ _ Ht).
    + now destruct (loop_body_not_streaming request l t Hs Hent)
        as (_ & -> & _).
Qed.

(** X6. The stop reason of a streaming session is the one of the last end
    marker among its fragments: a later marker replaces the stop reason an
    earlier one has set. *)
Theorem last_marker_decides request pre t post :
  request_stream request = true ->
  is_marker (text t) = true ->
  forallb (fun t' => negb (is_marker (text t'))) post = true ->
  resolved_stop_reason (locals_after request (pre ++ t :: post))
  = (if String.eqb (text t) eot_id then end_of_turn else end_of_message).
Proof.
  intros Hs Hm Hpost. unfold resolved_stop_reason.
  replace (pre ++ t :: post) with ((pre ++ [t]) ++ post)
    by now rewrite <- app_assoc.
  unfold locals_after at 1. rewrite run_loop_app. cbn [fst].
  fold (locals_after request (pre ++ [t])).
  rewrite (plain_fragments_keep_stop_reason _ _ _ Hpost).
  now rewrite (streaming_marker_sets_stop_reason request pre t Hs Hm).
Qed.

Lemma loop_body_no_stop_reason request l t :
  Forall (fun c => chunk_stop_reason c = None) (snd (loop_body request l t)).
Proof.
  destruct (enters_tool_call l t) eqn:Hent.
  - destruct (loop_body_enters request l t Hent) as (-> & _).
    now repeat constructor.
  - destruct (request_stream request) eqn:Hs.
    + destruct (loop_body_streaming request l t Hs Hent) as (_ & ->).
      destruct (fst (classify (stop_reason l) (text t))); now repeat constructor.
    + destruct (loop_body_not_streaming request l t Hs Hent) as (-> & _).
      constructor.
Qed.

(** X7. In a streaming session no chunk yielded while the tokens are being
    generated carries a stop reason, not even after an end marker; the
    chunks yielded once the loop is over, the tool-call results and the
    complete event, all carry the stop reason of the session. *)
Theorem stop_reason_on_chunks self request :
  request_stream request = true ->
  session_chunks self request
  = (start_chunk :: loop_chunks self request)
    ++ after_loop request (final_locals self request)
  /\ Forall (fun c => chunk_stop_reason c = None)
       (start_chunk :: loop_chunks self request)
  /\ Forall (fun c =>
               chunk_stop_reason c
               = Some (resolved_stop_reason (final_locals self request)))
       (after_loop request (final_locals self request)).
Proof.
  intros Hs. repeat split.
  - unfold session_chunks. now rewrite Hs.
  - constructor; [reflexivity|]. unfold loop_chunks.
    generalize (generator_chat_completion self request) as toks.
    generalize (@initial_locals E) as l.
    intros l toks. revert l. induction toks as [|t toks IH]; intros l.
    + constructor.
    + rewrite run_loop_cons. cbn [snd]. apply Forall_app. split.
      * apply loop_body_no_stop_reason.
      * apply IH.
  - unfold after_loop, tool_call_chunks. rewrite Hs.
    apply Forall_app. split; [apply Forall_app; split|].
    + destruct (ipython _ && _); now repeat constructor.
    + apply Forall_forall. intros c Hc. apply in_map_iff in Hc.
      now destruct Hc as (tc & <- & _).
    + now repeat constructor.
Qed.

(** ** What a streaming session shows *)

Lemma plain_text_chunks request l toks :
  request_stream request = true ->
  stop_reason l = None ->
  forallb (fun t => negb (is_marker (text t))) toks = true ->
  ipython (fst (run_loop request l toks)) = false ->
  snd (run_loop request l toks) = map (fragment_chunk false) toks.
Proof.
  intros Hs. revert l. induction toks as [|t toks IH]; intros l Hsr H Hi;
    [reflexivity|].
  cbn [forallb] in H. apply andb_true_iff in H. destruct H as (Ht & H).
  apply negb_true_iff in Ht.
  rewrite run_loop_cons in *. cbn [fst snd map] in *.
  assert (ipython (fst (loop_body request l t)) = false) as Hi1.
  { destruct (ipython (fst (loop_body request l t))) eqn:Hi1;
      [|reflexivity].
    destruct (run_loop_in_tool_call request _ toks Hi1) as (Hi2 & _).
    congruence. }
  rewrite loop_body_ipython in Hi1. apply orb_false_iff in Hi1.
  destruct Hi1 as (Hl & Hent).
  destruct (loop_body_streaming request l t Hs Hent) as (Hsr1 & Hout).
  rewrite (classify_plain _ _ Ht) in Hsr1, Hout. cbn [fst snd] in Hsr1, Hout.
  rewrite Hsr, Hl in Hout. rewrite Hout.
  cbn [app]. f_equal. apply IH; [congruence | exact H | exact Hi].
Qed.

Lemma tool_call_chunks_in_progress request l toks :
  request_stream request = true ->
  stop_reason l = None ->
  ipython l = true ->
  forallb (fun t => negb (is_marker (text t))) toks = true ->
  snd (run_loop request l toks) = map (fragment_chunk true) toks.
Proof.
  intros Hs. revert l. induction toks as [|t toks IH]; intros l Hsr Hl H;
    [reflexivity|].
  cbn [forallb] in H. apply andb_true_iff in H. destruct H as (Ht & H).
  apply negb_true_iff in Ht.
  rewrite run_loop_cons. cbn [fst snd map].
  pose proof (enters_tool_call_in_tool_call l t Hl) as Hent.
  destruct (loop_body_streaming request l t Hs Hent) as (Hsr1 & Hout).
  rewrite (classify_plain _ _ Ht) in Hsr1, Hout. cbn [fst snd] in Hsr1, Hout.
  rewrite Hsr, Hl in Hout. rewrite Hout.
  cbn [app]. f_equal. apply IH; [congruence | | exact H].
  now rewrite loop_body_ipython, Hl.
Qed.

(** Nothing is yielded from the first end marker on. *)
Lemma quiet_from_marker request toks rest :
  request_stream request = true ->
  rest = []
  \/ (exists m rest', rest = m :: rest' /\ is_marker (text m) = true) ->
  snd (run_loop request (locals_after request toks) rest) = [].
Proof.
  intros Hs [-> | (m & rest' & -> & Hm)]; [reflexivity|].
  rewrite run_loop_cons. cbn [snd].
  destruct (quiet_iteration request toks m Hs (or_intror Hm)) as (-> & H).
  rewrite <- locals_after_snoc. now apply quiet_loop.
Qed.

(** X8. A streaming session that stays out of tool-call mode shows the
    generated text as it comes: one progress event for each fragment
    before the first end marker, in order, with the text of that fragment
    as its delta, and nothing for the marker or after it. *)
Theorem streamed_text request body rest :
  request_stream request = true ->
  forallb (fun t => negb (is_marker (text t))) body = true ->
  rest = []
  \/ (exists m rest', rest = m :: rest' /\ is_marker (text m) = true) ->
  ipython (locals_after request body) = false ->
  snd (run_loop request initial_locals (body ++ rest))
  = map (fragment_chunk false) body.
Proof.
  intros Hs Hbody Hrest Hi.
  rewrite run_loop_app. cbn [snd].
  fold (locals_after request body).
  rewrite (quiet_from_marker request body rest Hs Hrest), app_nil_r.
  now apply plain_text_chunks.
Qed.

(** X9. A streaming session that enters tool-call mode at the fragment [t]
    shows the fragments before [t], which can only hold the first part of
    the tag, as text, then the [started] event in the place of [t], then
    each later fragment up to the first end marker as [in_progress]
    tool-call content: the fragment that completes the tag is the only one
    whose text is not shown. *)
Theorem streamed_tool_call request pre t body rest :
  request_stream request = true ->
  enters_tool_call (locals_after request pre) t = true ->
  forallb (fun t' => negb (is_marker (text t'))) (pre ++ body) = true ->
  rest = []
  \/ (exists m rest', rest = m :: rest' /\ is_marker (text m) = true) ->
  snd (run_loop request initial_locals (pre ++ t :: body ++ rest))
  = map (fragment_chunk false) pre
    ++ started_chunk :: map (fragment_chunk true) body.
Proof.
  intros Hs Hent Hplain Hrest.
  rewrite forallb_app in Hplain. apply andb_true_iff in Hplain.
  destruct Hplain as (Hpre & Hbody).
  assert (ipython (locals_after request pre) = false) as Hi.
  { unfold enters_tool_call in Hent. apply andb_true_iff in Hent.
    destruct Hent as (Hn & _). now apply negb_true_iff in Hn. }
  rewrite run_loop_app. cbn [snd]. fold (locals_after request pre).
  rewrite (plain_text_chunks request initial_locals pre Hs eq_refl Hpre Hi).
  f_equal. rewrite run_loop_cons. cbn [snd].
  destruct (loop_body_enters request _ t Hent) as (-> & Hsr).
  cbn [app]. f_equal. rewrite <- locals_after_snoc.
  rewrite run_loop_app. cbn [snd].
  assert (stop_reason (locals_after request (pre ++ [t])) = None) as Hnone.
  { rewrite locals_after_snoc, Hsr. unfold locals_after.
    now rewrite (plain_fragments_keep_stop_reason _ _ _ Hpre). }
  assert (ipython (locals_after request (pre ++ [t])) = true) as Hin.
  { now rewrite locals_after_snoc, loop_body_ipython, Hent, orb_true_r. }
  rewrite (tool_call_chunks_in_progress request _ body Hs Hnone Hin Hbody).
  replace (fst (run_loop request (locals_after request (pre ++ [t])) body))
    with (locals_after request ((pre ++ [t]) ++ body))
    by (unfold locals_after; now rewrite run_loop_app).
  now rewrite (quiet_from_marker request _ rest Hs Hrest), app_nil_r.
Qed.

End SessionProperties.

(** ** Instances on the sample sessions *)

Lemma permit_returned_witness :
  List.length
    (session_chunks (sample_impl hello_world) (sample_request true false))
  < 5
  /\ drain (sample_impl hello_world) 5 SEMAPHORE
       (Created (sample_request true false))
     = (session_chunks (sample_impl hello_world) (sample_request true false),
        Some StopAsyncIteration, SEMAPHORE)
  /\ snd (drain (sample_impl hello_world) 5 SEMAPHORE
            (Created (sample_request true false)))
     = SEMAPHORE.
Proof.
  split; [vm_compute; lia|]. split; [reflexivity|].
  apply (permit_returned (sample_impl hello_world) 5 SEMAPHORE
           (sample_request true false)).
  vm_compute; lia.
Defined.

Lemma provider_accepts_configured_model_witness :
  get_provider_impl (sample_generator hello_world) sample_config
  = inr (sample_impl hello_world)
  /\ request_model (sample_request true false) = config_model sample_config
  /\ check_model (sample_impl hello_world) (sample_request true false) = None.
Proof.
  split; [reflexivity|]. split; [reflexivity|].
  exact (proj1 (proj2
           (provider_accepts_configured_model
              (sample_generator hello_world) sample_config
              (sample_impl hello_world) (sample_request true false)
              eq_refl eq_refl))).
Defined.

Lemma not_streaming_session_witness :
  request_stream (sample_request false true) = false
  /\ session_chunks (sample_impl tool_call_tokens) (sample_request false true)
     = [started_chunk;
        @ChatCompletionResponse sample_models
          (out_of_tokens, ["get_weather"]) (Some [7; 4; 2])].
Proof.
  split; [reflexivity|].
  exact (not_streaming_session (sample_impl tool_call_tokens)
           (sample_request false true) eq_refl).
Defined.

Lemma not_streaming_logprobs_witness :
  request_stream (sample_request false true) = false
  /\ request_logprobs (sample_request false true) = true
  /\ logprobs (locals_after (sample_request false true) tool_call_tokens)
     = [7; 4; 2]
  /\ ((ipython (locals_after (sample_request false true) tool_call_tokens)
       = false
       /\ logprobs (locals_after (sample_request false true)
                      tool_call_tokens)
          = map logprob tool_call_tokens)
      \/ (exists pre t post,
            tool_call_tokens = pre ++ t :: post
            /\ enters_tool_call
                 (locals_after (sample_request false true) pre) t = true
            /\ logprobs (locals_after (sample_request false true)
                           tool_call_tokens)
               = map logprob (pre ++ post))).
Proof.
  split; [reflexivity|]. split; [reflexivity|]. split; [reflexivity|].
  exact (not_streaming_logprobs (sample_request false true)
           tool_call_tokens eq_refl eq_refl).
Defined.

Lemma last_marker_decides_witness :
  request_stream (sample_request true false) = true
  /\ is_marker (text (sample_token 3 "<|eom_id|>")) = true
  /\ two_marker_tokens
     = [sample_token 1 "Hi"; sample_token 2 "<|eot_id|>"]
       ++ sample_token 3 "<|eom_id|>" :: [sample_token 4 "tail"]
  /\ resolved_stop_reason
       (locals_after (sample_request true false) two_marker_tokens)
     = end_of_message.
Proof.
  split; [reflexivity|]. split; [reflexivity|]. split; [reflexivity|].
  exact (last_marker_decides (sample_request true false)
           [sample_token 1 "Hi"; sample_token 2 "<|eot_id|>"]
           (sample_token 3 "<|eom_id|>") [sample_token 4 "tail"]
           eq_refl eq_refl eq_refl).
Defined.

Lemma stop_reason_on_chunks_witness :
  request_stream (sample_request true false) = true
  /\ Forall (fun c => chunk_stop_reason c = None)
       (start_chunk
        :: loop_chunks (sample_impl tool_call_tokens)
             (sample_request true false))
  /\ Forall (fun c => chunk_stop_reason c = Some end_of_turn)
       (after_loop (sample_request true false)
          (final_locals (sample_impl tool_call_tokens)
             (sample_request true false))).
Proof.
  split; [reflexivity|].
  exact (proj2 (stop_reason_on_chunks (sample_impl tool_call_tokens)
                  (sample_request true false) eq_refl)).
Defined.

Lemma streamed_text_witness :
  request_stream (sample_request true false) = true
  /\ snd (run_loop (sample_request true false) initial_locals
            (hello_world
             ++ [sample_token 2 "<|eot_id|>"; sample_token 5 "more"]))
     = [progress_chunk (DeltaStr "Hello") None;
        progress_chunk (DeltaStr " world") None].
Proof.
  split; [reflexivity|].
  exact (streamed_text (sample_request true false) hello_world
           [sample_token 2 "<|eot_id|>"; sample_token 5 "more"]
           eq_refl eq_refl
           (or_intror
              (ex_intro _ (sample_token 2 "<|eot_id|>")
                 (ex_intro _ [sample_token 5 "more"]
                    (conj eq_refl eq_refl))))
           eq_refl).
Defined.

Lemma streamed_tool_call_witness :
  request_stream (sample_request true false) = true
  /\ enters_tool_call
       (locals_after (sample_request true false) [sample_token 3 "<|python"])
       (sample_token 4 "_tag|>") = true
  /\ snd (run_loop (sample_request true false) initial_locals
            ([sample_token 3 "<|python"]
             ++ sample_token 4 "_tag|>"
             :: [sample_token 7 "foo("; sample_token 4 "1)"]
             ++ [sample_token 2 "<|eot_id|>"]))
     = [progress_chunk (DeltaStr "<|python") None]
       ++ started_chunk
       :: [progress_chunk
             (DeltaToolCall {| content := ContentStr "foo(";
                               parse_status := in_progress |}) None;
           progress_chunk
             (DeltaToolCall {| content := ContentStr "1)";
                               parse_status := in_progress |}) None].
Proof.
  split; [reflexivity|]. split; [reflexivity|].
  exact (streamed_tool_call (sample_request true false)
           [sample_token 3 "<|python"] (sample_token 4 "_tag|>")
           [sample_token 7 "foo("; sample_token 4 "1)"]
           [sample_token 2 "<|eot_id|>"]
           eq_refl eq_refl eq_refl
           (or_intror
              (ex_intro _ (sample_token 2 "<|eot_id|>")
                 (ex_intro _ [] (conj eq_refl eq_refl))))).
Defined.

(** * The safety provider *)

Section SafetyProperties.

Context {E : LlamaModels} {S : Safety.Shields}.

Import Safety.

Lemma resolved_after_initialize (config : SafetyConfig) :
  initialize config = inr tt ->
  (forall shield_cfg,
      llama_guard_shield config = Some shield_cfg ->
      exists model_dir,
        resolve_and_get_path (llama_guard_model shield_cfg) = inr model_dir)
  /\ (forall shield_cfg,
         prompt_guard_shield config = Some shield_cfg ->
         exists model_dir,
           resolve_and_get_path (prompt_guard_model shield_cfg)
           = inr model_dir).
Proof.
  unfold initialize. intros H. split; intros shield_cfg Hcfg;
    rewrite Hcfg in H.
  - destruct (resolve_and_get_path (llama_guard_model shield_cfg));
      [discriminate | eauto].
  - destruct (match llama_guard_shield config with
              | Some c =>
                  match resolve_and_get_path (llama_guard_model c) with
                  | inl e => inl e
                  | inr _ => inr tt
                  end
              | None => inr tt
              end); [discriminate|].
    destruct (resolve_and_get_path (prompt_guard_model shield_cfg));
      [discriminate | eauto].
Qed.

(** X10. Once [initialize] has gone through for a configuration, looking
    up the shield of a definition fails only in two ways: the shield type
    is not one of the builtin ones ([ValueError]), or the configuration
    lacks the section the shield needs ([AssertionError] naming it).  The
    model of a section that is present always resolves. *)
Theorem failures_after_initialize (config : SafetyConfig)
    (sc : ShieldDefinition) (e : PyException) :
  initialize config = inr tt ->
  shield_config_to_shield sc config = inl e ->
  (exists name,
      shield_type sc = OtherShieldType name
      /\ e = ValueError (String.append "Unknown shield type: " name))
  \/ (shield_type sc = Builtin llama_guard
      /\ llama_guard_shield config = None
      /\ e = AssertionError
               "Cannot use LlamaGuardShield since not present in config")
  \/ (shield_type sc = Builtin jailbreak_shield
      /\ prompt_guard_shield config = None
      /\ e = AssertionError
               "Cannot use Jailbreak Shield since Prompt Guard not present in config")
  \/ (shield_type sc = Builtin injection_shield
      /\ prompt_guard_shield config = None
      /\ e = AssertionError
               "Cannot use PromptGuardShield since not present in config").
Proof.
  intros Hinit. destruct (resolved_after_initialize config Hinit)
    as (Hlg & Hpg).
  unfold shield_config_to_shield.
  destruct (shield_type sc) as [[| | | |] | name] eqn:Hty; intros H;
    try discriminate.
  - right. left. destruct (llama_guard_shield config) as [cfg|] eqn:Hc.
    + destruct (Hlg cfg eq_refl) as (d & Hd). rewrite Hd in H.
      discriminate.
    + injection H as <-. now repeat split.
  - right. right. right.
    destruct (prompt_guard_shield config) as [cfg|] eqn:Hc.
    + destruct (Hpg cfg eq_refl) as (d & Hd). rewrite Hd in H.
      discriminate.
    + injection H as <-. now repeat split.
  - right. right. left.
    destruct (prompt_guard_shield config) as [cfg|] eqn:Hc.
    + destruct (Hpg cfg eq_refl) as (d & Hd). rewrite Hd in H.
      discriminate.
    + injection H as <-. now repeat split.
  - left. exists name. injection H as <-. now split.
Qed.

Lemma shields_of_inr (config : SafetyConfig) (scs : list ShieldDefinition)
    (shields : list Shield) :
  shields_of scs config = inr shields
  <-> Forall2 (fun sc shield => shield_config_to_shield sc config = inr shield)
        scs shields.
Proof.
  revert shields. induction scs as [|sc scs IH]; intros shields;
    cbn [shields_of].
  - split.
    + intros [= <-]. constructor.
    + intros H. now inversion H.
  - destruct (shield_config_to_shield sc config) as [e | shield] eqn:Hsc.
    + split; [discriminate|]. intros H. inversion H; congruence.
    + destruct (shields_of scs config) as [e | shields'] eqn:Hrest.
      * split; [discriminate|]. intros H. inversion H as [|? ? ? ? _ Hr];
          subst. apply IH in Hr. discriminate.
      * split.
        -- intros [= <-]. constructor; [exact Hsc | now apply IH].
        -- intros H. inversion H as [|? s ? ss Hs Hr]; subst.
           apply IH in Hr. congruence.
Qed.

Lemma shields_of_inl (config : SafetyConfig) (scs : list ShieldDefinition)
    (e : PyException) :
  shields_of scs config = inl e
  <-> exists pre sc post,
        scs = pre ++ sc :: post
        /\ Forall (fun sc' =>
                     exists shield,
                       shield_config_to_shield sc' config = inr shield) pre
        /\ shield_config_to_shield sc config = inl e.
Proof.
  induction scs as [|sc scs IH]; cbn [shields_of].
  - split; [discriminate|]. intros (pre & sc & post & H & _).
    now destruct pre.
  - destruct (shield_config_to_shield sc config) as [e' | shield] eqn:Hsc.
    + split.
      * intros [= <-]. exists [], sc, scs. now repeat split.
      * intros (pre & sc' & post & H & Hpre & Hfail).
        destruct pre as [|sc0 pre]; cbn in H; injection H as <- ->.
        -- congruence.
        -- inversion Hpre as [|? ? (s & Hs) _]; congruence.
    + destruct (shields_of scs config) as [e' | shields'] eqn:Hrest.
      * split.
        -- intros [= <-]. destruct (proj1 IH eq_refl)
             as (pre & sc' & post & -> & Hpre & Hfail).
           exists (sc :: pre), sc', post. repeat split; [|exact Hfail].
           constructor; [eauto | exact Hpre].
        -- intros (pre & sc' & post & H & Hpre & Hfail).
           destruct pre as [|sc0 pre]; cbn in H; injection H as <- ->.
           ++ congruence.
           ++ f_equal. enough (inl e' = (inl e : PyException + list Shield))
                as [= ->] by reflexivity.
              apply IH. exists pre, sc', post. repeat split; [|exact Hfail].
              now inversion Hpre.
      * split; [discriminate|].
        intros (pre & sc' & post & H & Hpre & Hfail).
        destruct pre as [|sc0 pre]; cbn in H; injection H as <- ->.
        -- congruence.
        -- assert (inr shields' = (inl e : PyException + list Shield))
             as Habs; [|discriminate Habs].
           apply IH. exists pre, sc', post. repeat split; [|exact Hfail].
           now inversion Hpre.
Qed.

(** X11. When [run_shields] returns, its responses match the shield
    definitions of the request one for one and in order: the [i]-th
    response is what the shield of the [i]-th definition answers to the
    messages of the request. *)
Theorem run_shields_responses (config : SafetyConfig)
    (request : RunShieldRequest) (response : RunShieldResponse) :
  run_shields config request = inr response ->
  Forall2
    (fun sc r =>
       exists shield,
         shield_config_to_shield sc config = inr shield
         /\ r = shield_run shield (request_messages request))
    (request_shields request) (responses response).
Proof.
  unfold run_shields.
  destruct (shields_of (request_shields request) config)
    as [e | shields] eqn:H; [discriminate|].
  intros [= <-]. cbn [responses]. apply shields_of_inr in H.
  induction H as [|sc shield scs shields Hsc _ IH]; cbn [map];
    constructor; [eauto | exact IH].
Qed.

(** X12. [run_shields] raises exactly when some definition of the request
    has no shield, and then with the exception of the first such
    definition in the order of the request; definitions after it are not
    looked at. *)
Theorem run_shields_first_failure (config : SafetyConfig)
    (request : RunShieldRequest) (e : PyException) :
  run_shields config request = inl e
  <-> exists pre sc post,
        request_shields request = pre ++ sc :: post
        /\ Forall (fun sc' =>
                     exists shield,
                       shield_config_to_shield sc' config = inr shield) pre
        /\ shield_config_to_shield sc config = inl e.
Proof.
  rewrite <- shields_of_inl. unfold run_shields.
  destruct (shields_of (request_shields request) config) as [e' | shields].
  - split; intros [= ->]; reflexivity.
  - split; discriminate.
Qed.

End SafetyProperties.

Lemma failures_after_initialize_witness :
  @Safety.initialize sample_models sample_shields sample_safety_config
  = inr tt
  /\ @Safety.shield_config_to_shield sample_models sample_shields
       (sample_shield_definition Safety.jailbreak_shield)
       sample_safety_config
     = inl (AssertionError
              "Cannot use Jailbreak Shield since Prompt Guard not present in config")
  /\ @Safety.shield_config_to_shield sample_models sample_shields
       (sample_shield_definition Safety.llama_guard) sample_safety_config
     = inr "LlamaGuard:~/.llama/Meta-Llama3.1-8B-Instruct".
Proof.
  split; [reflexivity|]. split; [|reflexivity].
  destruct (@failures_after_initialize sample_models sample_shields
              sample_safety_config
              (sample_shield_definition Safety.jailbreak_shield)
              (AssertionError
                 "Cannot use Jailbreak Shield since Prompt Guard not present in config")
              eq_refl eq_refl) as [(name & H & _) | H];
    reflexivity.
Defined.

Lemma run_shields_responses_witness :
  Safety.run_shields sample_safety_config sample_shield_request
  = inr sample_shield_response
  /\ Forall2
       (fun sc r =>
          exists shield,
            @Safety.shield_config_to_shield sample_models sample_shields sc
              sample_safety_config = inr shield
            /\ r = Safety.shield_run shield
                     (Safety.request_messages sample_shield_request))
       (Safety.request_shields sample_shield_request)
       (Safety.responses sample_shield_response).
Proof.
  split; [reflexivity|].
  exact (run_shields_responses sample_safety_config sample_shield_request
           sample_shield_response eq_refl).
Defined.

(** * The resumable downloader *)

Section DownloadProperties.

Import Download.

Local Open Scope Z_scope.

Implicit Types (self : ResumableDownloader) (file : option (list Byte.byte)).
Implicit Types (attempt : Attempt) (attempts : list Attempt).
Implicit Types (events : list Event).

Lemma write_chunks_spec self (content : list Byte.byte)
    (chunks : list (list Byte.byte)) :
  url (fst (fst (write_chunks self content chunks))) = url self
  /\ total_size (fst (fst (write_chunks self content chunks)))
     = total_size self
  /\ downloaded_size (fst (fst (write_chunks self content chunks)))
     = downloaded_size self + Z.of_nat (List.length (List.concat chunks))
  /\ snd (fst (write_chunks self content chunks))
     = (content ++ List.concat chunks)%list
  /\ Forall (printed_for (total_size self))
       (snd (write_chunks self content chunks)).
Proof.
  revert self content. induction chunks as [|chunk chunks IH];
    intros self content; cbn [write_chunks List.concat].
  - cbn [fst snd List.length]. rewrite app_nil_r, Z.add_0_r.
    repeat split. constructor.
  - match goal with
    | |- context [write_chunks ?s ?c chunks] =>
        specialize (IH s c); destruct (write_chunks s c chunks)
          as [[self2 content2] events]
    end.
    cbn [fst snd url total_size downloaded_size] in *.
    destruct IH as (Hu & Ht & Hd & Hc & Hev).
    rewrite length_app, Nat2Z.inj_add, <- app_assoc in *.
    repeat split; try assumption; [lia|].
    constructor; [|exact Hev]. split; [reflexivity|].
    now intros d t [= _ <-].
Qed.

(** One turn of the loop that is not the last. *)
Lemma download_loop_turn self file attempt attempts :
  downloaded_size self < total_size self ->
  exists self1 file1 printed,
    download_loop self file (attempt :: attempts)
    = (status_of (download_loop self1 file1 attempts),
       downloader_of (download_loop self1 file1 attempts),
       file_of (download_loop self1 file1 attempts),
       Get (url self) (downloaded_size self)
         (downloaded_size self
          + Z.min (total_size self - downloaded_size self) max_chunk_size)
       :: printed ++ events_of (download_loop self1 file1 attempts))%list
    /\ url self1 = url self
    /\ total_size self1 = total_size self
    /\ downloaded_size self1
       = downloaded_size self
         + Z.of_nat (List.length (attempt_bytes attempt))
    /\ file_content file1
       = (file_content file ++ attempt_bytes attempt)%list
    /\ Forall (printed_for (total_size self)) printed.
Proof.
  intros Hlt. cbn [download_loop].
  destruct (total_size self <=? downloaded_size self) eqn:Hdone;
    [apply Z.leb_le in Hdone; lia|].
  destruct attempt as [cause | chunks broken].
  - exists self, file, [failure_event cause].
    destruct (download_loop self file attempts) as [[[st s1] f1] ev].
    cbn [status_of downloader_of file_of events_of fst snd attempt_bytes
         List.length app].
    rewrite Z.add_0_r, app_nil_r. repeat split.
    constructor; [|constructor]. split; [now destruct cause|].
    intros d t H. now destruct cause.
  - change (match file with Some content => content | None => [] end)
      with (file_content file).
    pose proof (write_chunks_spec self (file_content file) chunks) as Hw.
    destruct (write_chunks self (file_content file) chunks)
      as [[self1 content1] printed].
    cbn [fst snd] in Hw. destruct Hw as (Hu & Ht & Hd & Hc & Hev).
    exists self1, (Some content1),
      (printed ++ match broken with
                  | Some cause => [failure_event cause]
                  | None => []
                  end)%list.
    destruct (download_loop self1 (Some content1) attempts)
      as [[[st s2] f2] ev].
    cbn [status_of downloader_of file_of events_of fst snd attempt_bytes
         file_content].
    rewrite <- app_assoc. repeat split; try assumption.
    apply Forall_app. split; [exact Hev|].
    destruct broken as [cause|]; [|constructor].
    constructor; [|constructor]. split; [now destruct cause|].
    intros d t H. now destruct cause.
Qed.

Lemma download_loop_done self file attempts :
  total_size self <= downloaded_size self ->
  download_loop self file attempts = (Returned, self, file, [PrintFinished]).
Proof.
  intros H. apply Z.leb_le in H.
  destruct attempts; cbn [download_loop]; now rewrite H.
Qed.

Lemma gets_printed (total : Z) events :
  Forall (printed_for total) events -> gets events = [].
Proof.
  unfold gets. induction 1 as [|event events (Hg & _) _ IH]; [reflexivity|].
  cbn [filter]. now rewrite Hg.
Qed.

Lemma gets_turn (total : Z) (get : Event) events events' :
  is_get get = true ->
  Forall (printed_for total) events ->
  gets (get :: events ++ events') = get :: gets events'.
Proof.
  intros Hg H. unfold gets. cbn [filter]. rewrite Hg, filter_app.
  fold (gets events). now rewrite (gets_printed total events H).
Qed.

(** What the loop keeps, from a downloader that has counted the bytes of
    the file. *)
Lemma download_loop_content self file attempts :
  downloaded_size self = Z.of_nat (List.length (file_content file)) ->
  total_size (downloader_of (download_loop self file attempts))
  = total_size self
  /\ file_content (file_of (download_loop self file attempts))
     = (file_content file
        ++ attempts_bytes
             (firstn
                (List.length
                   (gets (events_of (download_loop self file attempts))))
                attempts))%list
  /\ downloaded_size (downloader_of (download_loop self file attempts))
     = Z.of_nat
         (List.length
            (file_content (file_of (download_loop self file attempts))))
  /\ (List.length (gets (events_of (download_loop self file attempts)))
      <= List.length attempts)%nat.
Proof.
  revert self file. induction attempts as [|attempt attempts IH];
    intros self file Hinv.
  - destruct (Z_lt_le_dec (downloaded_size self) (total_size self))
      as [Hlt | Hge].
    + cbn [download_loop]. apply Z.leb_gt in Hlt. rewrite Hlt.
      cbn. rewrite app_nil_r. now repeat split.
    + rewrite (download_loop_done self file [] Hge). cbn.
      rewrite app_nil_r. now repeat split.
  - destruct (Z_lt_le_dec (downloaded_size self) (total_size self))
      as [Hlt | Hge].
    + destruct (download_loop_turn self file attempt attempts Hlt)
        as (self1 & file1 & printed & -> & Hu & Ht & Hd & Hc & Hev).
      cbn [status_of downloader_of file_of events_of fst snd].
      rewrite (gets_turn (total_size self) (Get _ _ _) printed _ eq_refl Hev).
      destruct (IH self1 file1) as (IHt & IHc & IHd & IHn).
      { rewrite Hd, Hc, Hinv, length_app. lia. }
      cbn [List.length firstn]. unfold attempts_bytes in *.
      cbn [map List.concat]. repeat split.
      * congruence.
      * rewrite IHc, Hc, <- app_assoc. reflexivity.
      * exact IHd.
      * lia.
    + rewrite (download_loop_done self file _ Hge). cbn.
      rewrite app_nil_r. repeat split; [exact Hinv | lia].
Qed.

Lemma download_loop_status self file attempts :
  match status_of (download_loop self file attempts) with
  | Returned =>
      total_size self
      <= downloaded_size (downloader_of (download_loop self file attempts))
  | Running =>
      downloaded_size (downloader_of (download_loop self file attempts))
      < total_size self
      /\ List.length (gets (events_of (download_loop self file attempts)))
         = List.length attempts
  | Raised _ => False
  end.
Proof.
  revert self file. induction attempts as [|attempt attempts IH];
    intros self file.
  - destruct (Z_lt_le_dec (downloaded_size self) (total_size self))
      as [Hlt | Hge].
    + cbn [download_loop]. pose proof Hlt as Hlt'.
      apply Z.leb_gt in Hlt'. rewrite Hlt'. cbn. now split.
    + now rewrite (download_loop_done self file [] Hge).
  - destruct (Z_lt_le_dec (downloaded_size self) (total_size self))
      as [Hlt | Hge].
    + destruct (download_loop_turn self file attempt attempts Hlt)
        as (self1 & file1 & printed & -> & Hu & Ht & Hd & Hc & Hev).
      cbn [status_of downloader_of file_of events_of fst snd].
      rewrite (gets_turn (total_size self) (Get _ _ _) printed _ eq_refl Hev).
      specialize (IH self1 file1). rewrite Ht in IH.
      destruct (status_of (download_loop self1 file1 attempts));
        [exact IH | exact IH |].
      destruct IH as (IH1 & IH2). split; [exact IH1|].
      cbn [List.length]. now rewrite IH2.
    + now rewrite (download_loop_done self file _ Hge).
Qed.

Lemma download_loop_url self file attempts :
  url (downloader_of (download_loop self file attempts)) = url self
  /\ total_size (downloader_of (download_loop self file attempts))
     = total_size self.
Proof.
  revert self file. induction attempts as [|attempt attempts IH];
    intros self file;
    destruct (Z_lt_le_dec (downloaded_size self) (total_size self))
      as [Hlt | Hge];
    try now rewrite (download_loop_done self file _ Hge).
  - cbn [download_loop]. apply Z.leb_gt in Hlt. now rewrite Hlt.
  - destruct (download_loop_turn self file attempt attempts Hlt)
      as (self1 & file1 & printed & -> & Hu & Ht & _).
    cbn [downloader_of fst snd].
    fold (downloader_of (download_loop self1 file1 attempts)).
    destruct (IH self1 file1) as (-> & ->). now split.
Qed.

Lemma download_loop_ranges self file attempts (i : nat) (u : string)
    (a b : Z) :
  downloaded_size self = Z.of_nat (List.length (file_content file)) ->
  nth_error (gets (events_of (download_loop self file attempts))) i
  = Some (Get u a b) ->
  u = url self
  /\ a = Z.of_nat
           (List.length
              (file_content file ++ attempts_bytes (firstn i attempts)))
  /\ b = a + Z.min (total_size self - a) max_chunk_size
  /\ a < total_size self.
Proof.
  revert self file i. induction attempts as [|attempt attempts IH];
    intros self file i Hinv;
    destruct (Z_lt_le_dec (downloaded_size self) (total_size self))
      as [Hlt | Hge];
    try (rewrite (download_loop_done self file _ Hge); cbn;
         now destruct i).
  - cbn [download_loop]. pose proof Hlt as Hlt'. apply Z.leb_gt in Hlt'.
    rewrite Hlt'. cbn. now destruct i.
  - destruct (download_loop_turn self file attempt attempts Hlt)
      as (self1 & file1 & printed & -> & Hu & Ht & Hd & Hc & Hev).
    cbn [events_of snd].
    rewrite (gets_turn (total_size self) (Get _ _ _) printed _ eq_refl Hev).
    destruct i as [|i]; cbn [nth_error].
    + intros [= <- <- <-]. cbn [firstn]. unfold attempts_bytes.
      cbn [map List.concat]. rewrite app_nil_r.
      repeat split; assumption.
    + intros H. apply IH in H.
      * destruct H as (-> & -> & -> & H). rewrite Hc, Ht, Hu.
        cbn [firstn]. unfold attempts_bytes. cbn [map List.concat].
        rewrite <- app_assoc. repeat split.
        rewrite Hc, <- app_assoc in H. now rewrite <- Ht.
      * rewrite Hd, Hc, Hinv, length_app. lia.
Qed.

Lemma download_loop_progress self file attempts (d t : Z) :
  In (PrintProgress d t) (events_of (download_loop self file attempts)) ->
  t = total_size self /\ downloaded_size self < t.
Proof.
  revert self file. induction attempts as [|attempt attempts IH];
    intros self file;
    destruct (Z_lt_le_dec (downloaded_size self) (total_size self))
      as [Hlt | Hge];
    try (rewrite (download_loop_done self file _ Hge); cbn;
         now intros [H | []]).
  - cbn [download_loop]. pose proof Hlt as Hlt'. apply Z.leb_gt in Hlt'.
    rewrite Hlt'. now cbn.
  - destruct (download_loop_turn self file attempt attempts Hlt)
      as (self1 & file1 & printed & -> & Hu & Ht & Hd & Hc & Hev).
    cbn [events_of snd]. intros [H | H]; [discriminate|].
    apply in_app_or in H. destruct H as [H | H].
    + rewrite Forall_forall in Hev. destruct (Hev _ H) as (_ & Hp).
      rewrite (Hp d t eq_refl). now split.
    + apply IH in H. destruct H as (-> & _). rewrite Ht. now split.
Qed.

Lemma attempts_bytes_firstn (n : nat) attempts :
  (List.length (attempts_bytes (firstn n attempts))
   <= List.length (attempts_bytes attempts))%nat.
Proof.
  revert n. unfold attempts_bytes.
  induction attempts as [|attempt attempts IH]; intros n.
  - now destruct n.
  - destruct n as [|n]; cbn [firstn map List.concat List.length];
      [lia|].
    rewrite !length_app. specialize (IH n). lia.
Qed.

(** How [download] gets to its loop, for a downloader as [__init__]
    leaves it. *)
Lemma download_cases (u o : string) (total buffer : Z) (head : HeadResult)
    file (free_space : Z) attempts :
  (gets (events_of
           (download (new u o total buffer) head file free_space attempts))
   = []
   /\ file_of (download (new u o total buffer) head file free_space attempts)
      = file
   /\ (status_of
         (download (new u o total buffer) head file free_space attempts)
       = Returned ->
       fst (get_file_info (new u o total buffer) head)
       = {| url := url (fst (get_file_info (new u o total buffer) head));
            output_file := o; buffer_size := buffer;
            total_size :=
              total_size (fst (get_file_info (new u o total buffer) head));
            downloaded_size := 0; start_size := 0 |}
       /\ total_size (fst (get_file_info (new u o total buffer) head))
          <= Z.of_nat (List.length (file_content file))
       /\ downloaded_size
            (downloader_of
               (download (new u o total buffer) head file free_space
                  attempts))
          = Z.of_nat (List.length (file_content file)))
   /\ status_of
        (download (new u o total buffer) head file free_space attempts)
      <> Running
   /\ forall d t,
        ~ In (PrintProgress d t)
            (events_of
               (download (new u o total buffer) head file free_space
                  attempts)))
  \/ (exists self2,
        snd (get_file_info (new u o total buffer) head) = None
        /\ url self2 = url (fst (get_file_info (new u o total buffer) head))
        /\ total_size self2
           = total_size (fst (get_file_info (new u o total buffer) head))
        /\ downloaded_size self2
           = Z.of_nat (List.length (file_content file))
        /\ downloaded_size self2 < total_size self2
        /\ total_size self2 - downloaded_size self2 < free_space
        /\ download (new u o total buffer) head file free_space attempts
           = (status_of (download_loop self2 file attempts),
              downloader_of (download_loop self2 file attempts),
              file_of (download_loop self2 file attempts),
              (if 0 <? total then [] else [Head u])
              ++ events_of (download_loop self2 file attempts))%list).
Proof.
  unfold download. cbn [new total_size url].
  set (head_events := if 0 <? total then [] else [Head u]).
  assert (gets head_events = []) as Hhead
    by (unfold head_events; now destruct (0 <? total)).
  assert (forall d t, ~ In (PrintProgress d t) head_events) as Hnop.
  { intros d t. unfold head_events. destruct (0 <? total); cbn;
      [tauto | intros [H | []]; discriminate]. }
  assert (downloaded_size (fst (get_file_info (new u o total buffer) head))
          = 0
          /\ output_file (fst (get_file_info (new u o total buffer) head)) = o
          /\ buffer_size (fst (get_file_info (new u o total buffer) head))
             = buffer
          /\ start_size (fst (get_file_info (new u o total buffer) head)) = 0)
    as Hfields.
  { unfold get_file_info, new. cbn [total_size].
    destruct (0 <? total); [now cbn|].
    destruct head as [e | response_url content_length]; [now cbn|].
    cbn [total_size]. now destruct (_ =? 0). }
  fold (new u o total buffer).
  destruct (get_file_info (new u o total buffer) head) as [self1 [e|]]
    eqn:Hinfo; cbn [fst snd] in *.
  { left. cbn [status_of downloader_of file_of events_of fst snd].
    repeat split; try assumption; discriminate. }
  destruct Hfields as (Hd0 & Ho & Hb & Hs0).
  destruct file as [content|]; cbn [total_size downloaded_size file_content].
  - destruct (total_size self1 <=? Z.of_nat (List.length content)) eqn:Hdone.
    + left. cbn [status_of downloader_of file_of events_of fst snd
                 downloaded_size].
      apply Z.leb_le in Hdone. repeat split.
      * unfold gets in *. now rewrite filter_app, Hhead.
      * destruct self1; cbn in *. now subst.
      * exact Hdone.
      * discriminate.
      * intros d t H. apply in_app_or in H.
        destruct H as [H | [H | []]]; [now apply (Hnop d t) | discriminate].
    + unfold has_disk_space.
      destruct (total_size self1 - Z.of_nat (List.length content)
                <? free_space) eqn:Hspace; cbn [negb].
      * right.
        exists {| url := url self1; output_file := output_file self1;
                  buffer_size := buffer_size self1;
                  total_size := total_size self1;
                  downloaded_size := Z.of_nat (List.length content);
                  start_size := Z.of_nat (List.length content) |}.
        cbn [url total_size downloaded_size].
        apply Z.leb_gt in Hdone. apply Z.ltb_lt in Hspace.
        repeat split; try assumption.
        now destruct (download_loop _ (Some content) attempts)
          as [[[st s3] f3] ev].
      * left. cbn [status_of downloader_of file_of events_of fst snd].
        repeat split; try assumption; discriminate.
  - unfold has_disk_space.
    destruct (total_size self1 - downloaded_size self1 <? free_space)
      eqn:Hspace; cbn [negb].
    + destruct (Z_lt_le_dec (downloaded_size self1) (total_size self1))
        as [Hlt | Hge].
      * right. exists self1. apply Z.ltb_lt in Hspace.
        cbn [List.length]. repeat split; try assumption.
        now destruct (download_loop self1 None attempts)
          as [[[st s3] f3] ev].
      * left. rewrite (download_loop_done self1 None attempts Hge).
        cbn [status_of downloader_of file_of events_of fst snd List.length].
        repeat split.
        -- unfold gets in *. now rewrite filter_app, Hhead.
        -- destruct self1; cbn in *. now subst.
        -- lia.
        -- exact Hd0.
        -- discriminate.
        -- intros d t H. apply in_app_or in H.
           destruct H as [H | [H | []]];
             [now apply (Hnop d t) | discriminate].
    + left. cbn [status_of downloader_of file_of events_of fst snd].
      repeat split; try assumption; discriminate.
Qed.

Lemma gets_after_head (u : string) (total : Z) events :
  gets ((if 0 <? total then [] else [Head u]) ++ events) = gets events.
Proof. now destruct (0 <? total). Qed.

Lemma progress_after_head (u : string) (total d t : Z) events :
  In (PrintProgress d t) ((if 0 <? total then [] else [Head u]) ++ events) ->
  In (PrintProgress d t) events.
Proof.
  destruct (0 <? total); cbn [app]; [tauto|].
  now intros [H | H]; [discriminate|].
Qed.

Lemma get_file_info_total self (head : HeadResult) :
  snd (get_file_info self head) = None ->
  total_size (fst (get_file_info self head)) <> 0.
Proof.
  unfold get_file_info. destruct (0 <? total_size self) eqn:Hpos.
  - cbn. apply Z.ltb_lt in Hpos. lia.
  - destruct head as [e | response_url content_length]; [discriminate|].
    cbn [total_size].
    destruct (match content_length with Some n => n | None => 0 end =? 0)
      eqn:Hz; [discriminate|].
    cbn. now apply Z.eqb_neq in Hz.
Qed.

(** The downloader [download] leaves has the address and the total size
    [get_file_info] has found. *)
Lemma download_downloader self (head : HeadResult) file (free_space : Z)
    attempts :
  total_size (downloader_of (download self head file free_space attempts))
  = total_size (fst (get_file_info self head))
  /\ url (downloader_of (download self head file free_space attempts))
     = url (fst (get_file_info self head)).
Proof.
  unfold download.
  destruct (get_file_info self head) as [self1 [e|]]; cbn [fst];
    [now split|].
  destruct (match file with
            | Some _ => (_ <=? _)
            | None => false
            end); [now destruct file|].
  destruct (negb _); [now destruct file|].
  match goal with
  | |- context [download_loop ?s ?f ?a] =>
      destruct (download_loop_url s f a) as (Hu & Ht);
      destruct (download_loop s f a) as [[[st s3] f3] ev]
  end.
  cbn [downloader_of fst snd] in *. rewrite Ht, Hu. now destruct file.
Qed.

(** X13. [download] only ever appends to the output file: afterwards the
    file holds what it held before, followed by the bytes that arrived in
    the attempts the loop took, one attempt for each [GET] it sent, in
    order.  This includes the bytes of attempts that broke. *)
Theorem download_appends (u o : string) (total buffer : Z)
    (head : HeadResult) file (free_space : Z) attempts :
  file_content
    (file_of (download (new u o total buffer) head file free_space attempts))
  = (file_content file
     ++ attempts_bytes
          (firstn
             (List.length
                (gets
                   (events_of
                      (download (new u o total buffer) head file free_space
                         attempts))))
             attempts))%list
  /\ (List.length
        (gets
           (events_of
              (download (new u o total buffer) head file free_space
                 attempts)))
      <= List.length attempts)%nat.
Proof.
  destruct (download_cases u o total buffer head file free_space attempts)
    as [(Hg & Hf & _) | (self2 & _ & _ & _ & Hd & _ & _ & ->)].
  - rewrite Hg, Hf. cbn. rewrite app_nil_r. split; [reflexivity | lia].
  - cbn [file_of events_of fst snd]. rewrite gets_after_head.
    destruct (download_loop_content self2 file attempts Hd)
      as (_ & Hc & _ & Hn).
    now split.
Qed.

(** X14. When [download] returns, the output file has at least
    [total_size] bytes, [downloaded_size] is the size of the file, and
    [total_size] is not zero. *)
Theorem download_returned_complete (u o : string) (total buffer : Z)
    (head : HeadResult) file (free_space : Z) attempts :
  status_of (download (new u o total buffer) head file free_space attempts)
  = Returned ->
  total_size
    (downloader_of
       (download (new u o total buffer) head file free_space attempts))
  <= Z.of_nat
       (List.length
          (file_content
             (file_of
                (download (new u o total buffer) head file free_space
                   attempts))))
  /\ downloaded_size
       (downloader_of
          (download (new u o total buffer) head file free_space attempts))
     = Z.of_nat
         (List.length
            (file_content
               (file_of
                  (download (new u o total buffer) head file free_space
                     attempts))))
  /\ total_size
       (downloader_of
          (download (new u o total buffer) head file free_space attempts))
     <> 0.
Proof.
  intros Hret.
  destruct (download_downloader (new u o total buffer) head file free_space
              attempts) as (Htotal & _).
  assert (snd (get_file_info (new u o total buffer) head) = None) as Hok.
  { unfold download in Hret.
    destruct (get_file_info (new u o total buffer) head) as [self1 [e|]];
      [discriminate | reflexivity]. }
  rewrite Htotal.
  split; [|split; [|now apply get_file_info_total]].
  - destruct (download_cases u o total buffer head file free_space attempts)
      as [(_ & Hf & Hr & _) | (self2 & _ & _ & Ht & Hd & _ & _ & Heq)].
    + rewrite Hf. now destruct (Hr Hret) as (_ & H & _).
    + rewrite Heq in Hret |- *. cbn [status_of file_of fst snd] in *.
      pose proof (download_loop_status self2 file attempts) as Hst.
      fold (status_of (download_loop self2 file attempts)) in Hret.
      rewrite Hret in Hst.
      destruct (download_loop_content self2 file attempts Hd)
        as (_ & _ & Hlen & _).
      fold (file_of (download_loop self2 file attempts)).
      rewrite <- Hlen, <- Ht. exact Hst.
  - destruct (download_cases u o total buffer head file free_space attempts)
      as [(_ & Hf & Hr & _) | (self2 & _ & _ & Ht & Hd & _ & _ & Heq)].
    + rewrite Hf. now destruct (Hr Hret) as (_ & _ & H).
    + rewrite Heq. cbn [downloader_of file_of fst snd].
      now destruct (download_loop_content self2 file attempts Hd)
        as (_ & _ & Hlen & _).
Qed.

(** X15. Every [GET] of [download] asks for the bytes from the current
    end of the output file on: the range of the [i]-th request starts at
    the size the file has after the first [i] attempts, below
    [total_size], and ends at [total_size] or 27,000,000,000 bytes
    further, whichever comes first.  A request after a broken attempt
    therefore goes on where that attempt stopped. *)
Theorem download_requests (u o : string) (total buffer : Z)
    (head : HeadResult) file (free_space : Z) attempts
    (i : nat) (u' : string) (a b : Z) :
  nth_error
    (gets
       (events_of
          (download (new u o total buffer) head file free_space attempts)))
    i
  = Some (Get u' a b) ->
  u' = url (downloader_of
              (download (new u o total buffer) head file free_space attempts))
  /\ a = Z.of_nat
           (List.length
              (file_content file ++ attempts_bytes (firstn i attempts)))
  /\ b = a + Z.min
               (total_size
                  (downloader_of
                     (download (new u o total buffer) head file free_space
                        attempts))
                - a)
               max_chunk_size
  /\ a < total_size
           (downloader_of
              (download (new u o total buffer) head file free_space
                 attempts)).
Proof.
  destruct (download_downloader (new u o total buffer) head file free_space
              attempts) as (-> & ->).
  destruct (download_cases u o total buffer head file free_space attempts)
    as [(Hg & _) | (self2 & _ & Hu & Ht & Hd & _ & _ & ->)].
  - rewrite Hg. now destruct i.
  - cbn [events_of snd]. rewrite gets_after_head, <- Hu, <- Ht.
    now apply download_loop_ranges.
Qed.

(** X16. [download] sends a [GET] only when the output file is shorter
    than [total_size] and the free space is strictly more than the bytes
    still missing; with a complete file, or with free space equal to the
    missing bytes, no request for content is sent. *)
Theorem download_requests_need_space (u o : string) (total buffer : Z)
    (head : HeadResult) file (free_space : Z) attempts :
  gets
    (events_of
       (download (new u o total buffer) head file free_space attempts))
  <> [] ->
  Z.of_nat (List.length (file_content file))
  < total_size
      (downloader_of
         (download (new u o total buffer) head file free_space attempts))
  /\ total_size
       (downloader_of
          (download (new u o total buffer) head file free_space attempts))
     - Z.of_nat (List.length (file_content file))
     < free_space.
Proof.
  destruct (download_downloader (new u o total buffer) head file free_space
              attempts) as (-> & _).
  destruct (download_cases u o total buffer head file free_space attempts)
    as [(Hg & _) | (self2 & _ & _ & Ht & Hd & Hlt & Hspace & _)].
  - now rewrite Hg.
  - intros _. rewrite <- Ht, <- Hd. now split.
Qed.

(** X17. With the size of the file known and room for what is missing,
    [download] returns exactly when the attempts bring at least the
    missing bytes, however they are spread over attempts that end, break
    or are refused.  Otherwise its loop is still asking when the attempts
    are used up. *)
Theorem download_finishes (u o : string) (total buffer : Z)
    (head : HeadResult) file (free_space : Z) attempts :
  snd (get_file_info (new u o total buffer) head) = None ->
  total_size (fst (get_file_info (new u o total buffer) head))
  - Z.of_nat (List.length (file_content file)) < free_space ->
  (status_of (download (new u o total buffer) head file free_space attempts)
   = Returned
   <-> total_size (fst (get_file_info (new u o total buffer) head))
       - Z.of_nat (List.length (file_content file))
       <= Z.of_nat (List.length (attempts_bytes attempts)))
  /\ (status_of
        (download (new u o total buffer) head file free_space attempts)
      = Running
      <-> Z.of_nat (List.length (attempts_bytes attempts))
          < total_size (fst (get_file_info (new u o total buffer) head))
            - Z.of_nat (List.length (file_content file))).
Proof.
  intros Hok Hspace.
  destruct (download_cases u o total buffer head file free_space attempts)
    as [(_ & _ & Hr & Hnr & _)
       | (self2 & _ & _ & Ht & Hd & Hlt & _ & Heq)].
  - assert (status_of
              (download (new u o total buffer) head file free_space attempts)
            = Returned) as Hret.
    { revert Hnr. unfold download. rewrite (surjective_pairing
        (get_file_info (new u o total buffer) head)), Hok.
      destruct (match file with
                | Some _ => (_ <=? _)
                | None => false
                end); [reflexivity|].
      unfold has_disk_space.
      match goal with
      | |- context [negb (?x <? free_space)] =>
          assert ((x <? free_space) = true) as Hs
      end.
      { apply Z.ltb_lt. destruct file as [content|];
          cbn [total_size downloaded_size file_content] in *;
          [exact Hspace|].
        assert (downloaded_size
                  (fst (get_file_info (new u o total buffer) head)) = 0)
          as Hd0.
        { unfold get_file_info, new. cbn [total_size].
          destruct (0 <? total); [reflexivity|].
          destruct head as [e | response_url content_length];
            [reflexivity|].
          cbn [total_size]. now destruct (_ =? 0). }
        rewrite Hd0. cbn [List.length] in Hspace. lia. }
      rewrite Hs. cbn [negb].
      match goal with
      | |- context [download_loop ?s ?f ?a] =>
          pose proof (download_loop_status s f a) as Hst;
          destruct (download_loop s f a) as [[[st s3] f3] ev]
      end.
      cbn [status_of fst] in *. destruct st; [reflexivity | easy |].
      intros H. now contradiction H. }
    destruct (Hr Hret) as (_ & Hle & _).
    split; split; intros H; try lia; try assumption; try congruence.
  - rewrite Heq. cbn [status_of fst].
    fold (status_of (download_loop self2 file attempts)).
    rewrite <- Ht, <- Hd.
    pose proof (download_loop_status self2 file attempts) as Hst.
    destruct (download_loop_content self2 file attempts Hd)
      as (_ & Hc & Hlen & _).
    pose proof (attempts_bytes_firstn
                  (List.length
                     (gets (events_of (download_loop self2 file attempts))))
                  attempts) as Hfirst.
    rewrite Hc, length_app in Hlen.
    destruct (status_of (download_loop self2 file attempts)) eqn:Hs.
    + split; split; intros H; try reflexivity; try discriminate; lia.
    + contradiction.
    + destruct Hst as (Hshort & Hall).
      rewrite Hall, firstn_all in Hlen.
      split; split; intros H; try reflexivity; try discriminate; lia.
Qed.

(** X18. Whenever [download] prints the progress, the total it divides by
    is the positive [total_size] of the downloader, and fewer bytes than
    that were in the file when the request was sent: [print_progress]
    never divides by zero. *)
Theorem download_progress_total (u o : string) (total buffer : Z)
    (head : HeadResult) file (free_space : Z) attempts (d t : Z) :
  In (PrintProgress d t)
    (events_of
       (download (new u o total buffer) head file free_space attempts)) ->
  t = total_size
        (downloader_of
           (download (new u o total buffer) head file free_space attempts))
  /\ 0 < t.
Proof.
  destruct (download_downloader (new u o total buffer) head file free_space
              attempts) as (-> & _).
  destruct (download_cases u o total buffer head file free_space attempts)
    as [(_ & _ & _ & _ & Hno) | (self2 & _ & _ & Ht & Hd & _ & _ & ->)].
  - intros H. now apply Hno in H.
  - cbn [events_of snd]. intros H. apply progress_after_head in H.
    apply download_loop_progress in H. destruct H as (-> & H).
    split; [exact Ht | lia].
Qed.

Lemma get_file_info_raises self (head : HeadResult) (e : PyException) :
  snd (get_file_info self head) = Some e ->
  total_size self <= 0
  /\ (head = HeadRaises e
      \/ (e = unable_to_determine
          /\ exists response_url content_length,
               head = HeadResponse response_url content_length
               /\ (content_length = None \/ content_length = Some 0))).
Proof.
  unfold get_file_info. destruct (0 <? total_size self) eqn:Hpos;
    [discriminate|].
  apply Z.ltb_ge in Hpos. split; [exact Hpos|]. revert H.
  destruct head as [e' | response_url content_length].
  - intros [= <-]. now left.
  - cbn [total_size].
    destruct (match content_length with Some n => n | None => 0 end =? 0)
      eqn:Hz; [|discriminate].
    intros [= <-]. right. split; [reflexivity|].
    exists response_url, content_length. split; [reflexivity|].
    apply Z.eqb_eq in Hz. destruct content_length; [right | now left].
    now rewrite Hz.
Qed.

Lemma get_file_info_downloaded self (head : HeadResult) :
  downloaded_size (fst (get_file_info self head)) = downloaded_size self.
Proof.
  unfold get_file_info. destruct (0 <? total_size self); [reflexivity|].
  destruct head as [e | response_url content_length]; [reflexivity|].
  cbn [total_size]. now destruct (_ =? 0).
Qed.

(** X23. [download] raises only before it has sent any [GET], and with
    the output file untouched: the exception of the [HEAD] request, the
    [ValueError] for a size of zero, or, when the free space is not more
    than the missing bytes, the [NameError] that the message of line 205
    runs into.  What goes wrong during a [GET] never leaves the loop. *)
Theorem download_raises (u o : string) (total buffer : Z)
    (head : HeadResult) file (free_space : Z) attempts (e : PyException) :
  status_of (download (new u o total buffer) head file free_space attempts)
  = Raised e ->
  gets
    (events_of
       (download (new u o total buffer) head file free_space attempts))
  = []
  /\ file_of (download (new u o total buffer) head file free_space attempts)
     = file
  /\ ((total <= 0 /\ head = HeadRaises e)
      \/ (total <= 0
          /\ e = unable_to_determine
          /\ exists response_url content_length,
               head = HeadResponse response_url content_length
               /\ (content_length = None \/ content_length = Some 0))
      \/ (e = NameError "name 'M' is not defined"
          /\ free_space
             <= total_size
                  (downloader_of
                     (download (new u o total buffer) head file free_space
                        attempts))
                - Z.of_nat (List.length (file_content file)))).
Proof.
  intros Hraised.
  destruct (download_cases u o total buffer head file free_space attempts)
    as [(Hg & Hf & _) | (self2 & _ & _ & _ & _ & _ & _ & Heq)].
  2:{ rewrite Heq in Hraised. cbn [status_of fst] in Hraised.
      fold (status_of (download_loop self2 file attempts)) in Hraised.
      pose proof (download_loop_status self2 file attempts) as Hst.
      now rewrite Hraised in Hst. }
  split; [exact Hg|]. split; [exact Hf|]. clear Hg Hf.
  destruct (download_downloader (new u o total buffer) head file free_space
              attempts) as (-> & _).
  pose proof (get_file_info_raises (new u o total buffer) head) as Hinfo.
  pose proof (get_file_info_downloaded (new u o total buffer) head) as Hd0.
  revert Hraised. unfold download.
  destruct (get_file_info (new u o total buffer) head) as [self1 [e'|]];
    cbn [fst snd] in *.
  { cbn [status_of fst]. intros [= ->].
    destruct (Hinfo e eq_refl) as (Hle & [H | H]);
      [left | right; left]; now split. }
  clear Hinfo.
  assert (forall self (fl : option (list Byte.byte)) events0,
             status_of
               (let '(status, self3, file3, events) :=
                  download_loop self fl attempts in
                (status, self3, file3, (events0 ++ events)%list))
             <> Raised e) as Hloop.
  { intros self fl events0.
    pose proof (download_loop_status self fl attempts) as Hst.
    destruct (download_loop self fl attempts) as [[[st s3] f3] ev].
    cbn [status_of fst] in *. intros ->. contradiction. }
  destruct file as [content|];
    cbn [total_size downloaded_size file_content List.length].
  - destruct (total_size self1 <=? Z.of_nat (List.length content));
      [cbn [status_of fst]; discriminate|].
    unfold has_disk_space.
    destruct (total_size self1 - Z.of_nat (List.length content)
              <? free_space) eqn:Hs; cbn [negb].
    + intros H. now apply Hloop in H.
    + cbn [status_of fst]. intros [= <-]. right. right.
      apply Z.ltb_ge in Hs. now split.
  - unfold has_disk_space. rewrite Hd0. cbn [new downloaded_size].
    destruct (total_size self1 - 0 <? free_space) eqn:Hs; cbn [negb].
    + intros H. now apply Hloop in H.
    + cbn [status_of fst]. intros [= <-]. right. right.
      apply Z.ltb_ge in Hs. rewrite Z.sub_0_r in *. now split.
Qed.

(** X19. The bar of [print_progress] shows [filled_length] full blocks,
    the part of 50 that has arrived, rounded down.  It has 50 cells as long
    as no more than [total_size] bytes have arrived; when more arrive, it
    has only full blocks and grows past 50. *)
Theorem bar_cells self :
  0 < total_size self ->
  0 <= downloaded_size self ->
  count_occ Z.eq_dec (bar self) full_block = Z.to_nat (filled_length self)
  /\ filled_length self * total_size self <= 50 * downloaded_size self
     < (filled_length self + 1) * total_size self
  /\ List.length (bar self)
     = Z.to_nat (Z.max bar_length (filled_length self))
  /\ (downloaded_size self <= total_size self ->
      filled_length self <= bar_length
      /\ List.length (bar self) = 50%nat).
Proof.
  intros Ht Hd. unfold bar, filled_length, bar_length in *.
  assert (0 <= 50 * downloaded_size self / total_size self) as Hf
    by (apply Z.div_pos; lia).
  pose proof (Z.mul_div_le (50 * downloaded_size self) (total_size self) Ht)
    as Hlow.
  pose proof (Z.mul_succ_div_gt (50 * downloaded_size self)
                (total_size self) Ht) as Hhigh.
  repeat split.
  - rewrite count_occ_app, count_occ_repeat_eq by reflexivity.
    rewrite count_occ_repeat_neq by discriminate. lia.
  - lia.
  - lia.
  - rewrite length_app, !repeat_length. lia.
  - apply Z.div_le_upper_bound; lia.
  - rewrite length_app, !repeat_length.
    assert (50 * downloaded_size self / total_size self <= 50)
      by (apply Z.div_le_upper_bound; lia).
    lia.
Qed.

End DownloadProperties.

(** ** The downloads of a model *)

Section MetaDownloadProperties.

Import Download.

Local Open Scope Z_scope.

Variable path_join : string -> string -> string.

Lemma contains_star_cons (c : ascii) (s : string) :
  contains "*" (String c s) = Ascii.eqb c "*" || contains "*" s.
Proof.
  cbn [contains String.prefix].
  destruct (ascii_dec "*" c) as [<- | Hne].
  - now destruct s.
  - destruct (Ascii.eqb_spec c "*") as [-> | _]; [contradiction|].
    reflexivity.
Qed.

Lemma contains_star_append (a b : string) :
  contains "*" (String.append a b) = contains "*" a || contains "*" b.
Proof.
  induction a as [|c a IH].
  - cbn [String.append]. now destruct b.
  - cbn [String.append]. rewrite !contains_star_cons, IH.
    now rewrite orb_assoc.
Qed.

Lemma replace_star_free (new s : string) :
  contains "*" new = false ->
  contains "*" (replace "*" new s) = false.
Proof.
  intros Hnew. induction s as [|c s IH]; [reflexivity|].
  cbn [replace]. destruct (Ascii.eqb c "*") eqn:Hc.
  - now rewrite contains_star_append, Hnew, IH.
  - now rewrite contains_star_cons, Hc, IH.
Qed.

Lemma replace_star_id (new s : string) :
  contains "*" s = false -> replace "*" new s = s.
Proof.
  induction s as [|c s IH]; [reflexivity|].
  rewrite contains_star_cons. intros H. apply orb_false_iff in H.
  destruct H as (Hc & Hs). cbn [replace]. now rewrite Hc, IH.
Qed.

(** X20. When neither the folder nor the file name holds a [*], the
    address of the downloader made for a file holds none either: every
    [*] of the signed address is replaced.  The address is the signed
    address itself exactly when that one has no [*], and then every file
    of the model is asked from the same address. *)
Theorem meta_url_replaced (output_dir meta_url : string)
    (info : LlamaDownloadInfo) (f : string) :
  contains "*" (String.append (folder info) (String.append "/" f)) = false ->
  contains "*" (url (downloader_for path_join output_dir meta_url info f))
  = false
  /\ (url (downloader_for path_join output_dir meta_url info f) = meta_url
      <-> contains "*" meta_url = false).
Proof.
  intros Hnew. unfold downloader_for, new. cbn [url].
  split; [now apply replace_star_free|]. split.
  - intros H. rewrite <- H. now apply replace_star_free.
  - apply replace_star_id.
Qed.

Lemma download_loop_first self (file : option (list Byte.byte))
    (attempts : list Attempt) (u : string) :
  hd_error (events_of (download_loop self file attempts)) <> Some (Head u).
Proof.
  destruct attempts as [|attempt attempts]; cbn [download_loop];
    destruct (total_size self <=? downloaded_size self); try discriminate.
  destruct attempt as [cause | chunks broken].
  - now destruct (download_loop self file attempts) as [[[st s1] f1] ev].
  - destruct (write_chunks self _ chunks) as [[self1 content1] printed].
    now destruct (download_loop self1 (Some content1) attempts)
      as [[[st s2] f2] ev].
Qed.

(** X21. The size of a file of a model is known beforehand only when its
    name holds "consolidated" and the model's [pth_size] is positive.
    [download] starts with a [HEAD] request for the size exactly for the
    other files. *)
Theorem meta_download_head (output_dir meta_url : string)
    (info : LlamaDownloadInfo) (f : string) (head : HeadResult)
    (file : option (list Byte.byte)) (free_space : Z)
    (attempts : list Attempt) :
  hd_error
    (events_of
       (download (downloader_for path_join output_dir meta_url info f)
          head file free_space attempts))
  = Some (Head (url (downloader_for path_join output_dir meta_url info f)))
  <-> contains "consolidated" f = false \/ pth_size info <= 0.
Proof.
  unfold downloader_for.
  set (u := replace "*" _ meta_url).
  set (total := if contains "consolidated" f then pth_size info else 0).
  assert ((0 <? total) = false
          <-> contains "consolidated" f = false \/ pth_size info <= 0)
    as Hiff.
  { unfold total. destruct (contains "consolidated" f).
    - rewrite Z.ltb_ge. split; [now right | now intros [H | H]].
    - split; [now left | reflexivity]. }
  rewrite <- Hiff. clear Hiff.
  unfold download, get_file_info. cbn [new total_size url].
  destruct (0 <? total) eqn:Hpos.
  - split; [|discriminate]. intros H. exfalso. revert H.
    cbn [app].
    destruct (match file with Some _ => (_ <=? _) | None => false end);
      [discriminate|].
    destruct (negb _); [discriminate|].
    match goal with
    | |- context [download_loop ?s ?f ?a] =>
        pose proof (download_loop_first s f a u) as Hfirst;
        destruct (download_loop s f a) as [[[st s3] f3] ev]
    end.
    exact Hfirst.
  - split; [reflexivity|]. intros _.
    destruct head as [e | response_url content_length]; [reflexivity|].
    cbn [total_size].
    destruct (_ =? 0); [reflexivity|].
    destruct (match file with Some _ => (_ <=? _) | None => false end);
      [reflexivity|].
    destruct (negb _); [reflexivity|].
    match goal with
    | |- context [download_loop ?s ?f ?a] =>
        destruct (download_loop s f a) as [[[st s3] f3] ev]
    end.
    reflexivity.
Qed.

End MetaDownloadProperties.

(** ** Instances on a sample download

    A file of 10 bytes of which 4 are there; a first attempt brings 3 bytes
    and breaks, a second is refused, a third brings the rest and one byte
    more. *)

Lemma download_returned_complete_witness :
  Download.status_of
    (Download.download sample_downloader sample_head sample_file 100
       sample_attempts)
  = Download.Returned
  /\ Download.file_of
       (Download.download sample_downloader sample_head sample_file 100
          sample_attempts)
     = Some (sample_bytes 11)
  /\ (Download.total_size
        (Download.downloader_of
           (Download.download sample_downloader sample_head sample_file 100
              sample_attempts))
      <= 11)%Z.
Proof.
  split; [reflexivity|]. split; [reflexivity|].
  exact (proj1 (download_returned_complete
                  "https://example.net/f" "/tmp/f" 10
                  Download.default_buffer_size sample_head sample_file 100
                  sample_attempts eq_refl)).
Defined.

Lemma download_requests_witness :
  nth_error
    (Download.gets
       (Download.events_of
          (Download.download sample_downloader sample_head sample_file 100
             sample_attempts)))
    1
  = Some (Download.Get "https://example.net/f" 7 10)
  /\ 7%Z
     = Z.of_nat
         (List.length
            (Download.file_content sample_file
             ++ Download.attempts_bytes (firstn 1 sample_attempts))).
Proof.
  split; [reflexivity|].
  exact (proj1 (proj2
           (download_requests "https://example.net/f" "/tmp/f" 10
              Download.default_buffer_size sample_head sample_file 100
              sample_attempts 1 "https://example.net/f" 7 10 eq_refl))).
Defined.

Lemma download_requests_need_space_witness :
  Download.gets
    (Download.events_of
       (Download.download sample_downloader sample_head sample_file 100
          sample_attempts))
  <> []
  /\ (4 < 10)%Z /\ (10 - 4 < 100)%Z.
Proof.
  split; [discriminate|].
  exact (download_requests_need_space "https://example.net/f" "/tmp/f" 10
           Download.default_buffer_size sample_head sample_file 100
           sample_attempts ltac:(discriminate)).
Defined.

Lemma download_finishes_witness :
  snd (Download.get_file_info sample_downloader sample_head) = None
  /\ (10 - 4 < 100)%Z
  /\ (Download.status_of
        (Download.download sample_downloader sample_head sample_file 100
           sample_attempts)
      = Download.Returned
      <-> (10 - 4 <= 7)%Z).
Proof.
  split; [reflexivity|]. split; [reflexivity|].
  exact (proj1 (download_finishes "https://example.net/f" "/tmp/f" 10
                  Download.default_buffer_size sample_head sample_file 100
                  sample_attempts eq_refl eq_refl)).
Defined.

Lemma download_progress_total_witness :
  In (Download.PrintProgress 7 10)
    (Download.events_of
       (Download.download sample_downloader sample_head sample_file 100
          sample_attempts))
  /\ (0 < 10)%Z.
Proof.
  split; [right; left; reflexivity|].
  exact (proj2 (download_progress_total "https://example.net/f" "/tmp/f" 10
                  Download.default_buffer_size sample_head sample_file 100
                  sample_attempts 7 10
                  (or_intror (or_introl eq_refl)))).
Defined.

Lemma bar_cells_witness :
  (0 < Download.total_size
         (Download.downloader_of
            (Download.download_loop sample_downloader None
               [Download.Streamed [sample_bytes 7] None])))%Z
  /\ List.length
       (Download.bar
          (Download.downloader_of
             (Download.download_loop sample_downloader None
                [Download.Streamed [sample_bytes 7] None])))
     = 50%nat
  /\ Download.filled_length
       (Download.downloader_of
          (Download.download_loop sample_downloader None
             [Download.Streamed [sample_bytes 7] None]))
     = 35%Z.
Proof.
  split; [reflexivity|]. split; [|reflexivity].
  exact (proj2 (proj2 (proj2 (proj2
           (bar_cells
              (Download.downloader_of
                 (Download.download_loop sample_downloader None
                    [Download.Streamed [sample_bytes 7] None]))
              eq_refl ltac:(discriminate)))) ltac:(discriminate))).
Defined.

Lemma meta_url_replaced_witness :
  Download.contains "*"
    (String.append (Download.folder sample_info)
       (String.append "/" "params.json")) = false
  /\ Download.url
       (Download.downloader_for sample_path_join "/out"
          "https://llama3-1.llamameta.net/*?Policy=abc" sample_info
          "params.json")
     = "https://llama3-1.llamameta.net/Meta-Llama3.1-8B/params.json?Policy=abc"
  /\ Download.contains "*"
       (Download.url
          (Download.downloader_for sample_path_join "/out"
             "https://llama3-1.llamameta.net/*?Policy=abc" sample_info
             "params.json"))
     = false.
Proof.
  split; [reflexivity|]. split; [reflexivity|].
  exact (proj1 (meta_url_replaced sample_path_join "/out"
                  "https://llama3-1.llamameta.net/*?Policy=abc" sample_info
                  "params.json" eq_refl)).
Defined.

(** * Custom tools *)

Section CustomToolProperties.

Context {E : LlamaModels} {R : CustomTool.ToolRuntime}.

Import CustomTool.


End CustomToolProperties.


(** A size of 5 bytes learnt from the [HEAD] request, no file yet, and 5
    bytes free. *)
Lemma download_raises_witness :
  Download.status_of
    (Download.download (Download.new "https://example.net/f" "/tmp/f" 0 1)
       (Download.HeadResponse "https://example.net/f" (Some 5%Z)) None 5 [])
  = Download.Raised (NameError "name 'M' is not defined")
  /\ Download.events_of
       (Download.download (Download.new "https://example.net/f" "/tmp/f" 0 1)
          (Download.HeadResponse "https://example.net/f" (Some 5%Z)) None 5
          [])
     = [Download.Head "https://example.net/f"]
  /\ Download.file_of
       (Download.download (Download.new "https://example.net/f" "/tmp/f" 0 1)
          (Download.HeadResponse "https://example.net/f" (Some 5%Z)) None 5
          [])
     = None.
Proof.
  split; [reflexivity|]. split; [reflexivity|].
  exact (proj1 (proj2
           (download_raises "https://example.net/f" "/tmp/f" 0 1
              (Download.HeadResponse "https://example.net/f" (Some 5%Z))
              None 5 [] (NameError "name 'M' is not defined") eq_refl))).
Defined.
